(** * Black Coffee Terminal backend: the in-memory record store and the
      resource handlers of [backend/server.py]

    The development follows the layout of the source file: Python values and
    the two operators the handlers apply to them, the fallback store
    ([InMemoryDB], [InMemoryCollection], [InMemoryCursor]), the pydantic
    models, the route handlers, and then the properties. The handlers are
    those of the process whose [db] is the [InMemoryDB]; the branch through
    the external database driver is not part of it. *)

From Stdlib Require Import ZArith Floats.
From stdpp Require Import gmap strings list fin_maps pretty.

Local Open Scope string_scope.
Local Open Scope list_scope.

(** ** Python values held in a stored document

    The documents this program stores are built from [StatusCheck.dict()],
    [Order.dict()] and the seeded menu: their fields are [str], [int],
    [float], [bool] and [datetime] values. A naive [datetime] is kept as its
    microsecond count. *)

Inductive value :=
| VBool (b : bool)
| VInt (z : Z)
| VFloat (f : float)
| VStr (s : string)
| VDatetime (t : Z).

(** A document is a Python [dict] from field name to value. *)
Abbreviation document := (gmap string value).

(** A query is a [dict] as well. *)
Abbreviation query := (gmap string value).

(** The exceptions that occur, all of them instances of [Exception];
    [AgentError] stands for whatever the agent library raises. *)
Inductive exception :=
| AttributeError (msg : string)
| KeyError (key : string)
| TypeError (msg : string)
| OverflowError (msg : string)
| ValidationError (field : string)
| HTTPException (status_code : Z) (detail : string)
| AgentError (msg : string).

(** Outcome of a Python expression: a value or a raised exception. *)
Inductive outcome (A : Type) :=
| Returns (a : A)
| Raises (e : exception).
Arguments Returns {A} a.
Arguments Raises {A} e.

Definition bind {A B} (m : outcome A) (k : A -> outcome B) : outcome B :=
  match m with
  | Returns a => k a
  | Raises e => Raises e
  end.

Notation "x ←! m ; k" := (bind m (fun x => k))
  (at level 100, m at next level, right associativity).

(** *** Numeric tower: [==] between [bool], [int] and [float] *)

Definition int_of_bool (b : bool) : Z := if b then 1%Z else 0%Z.

(** [int == float] compares the exact values; [nan] and the infinities equal
    no integer. *)
Definition int_eq_float (z : Z) (f : float) : bool :=
  match Prim2SF f with
  | S754_zero _ => Z.eqb z 0
  | S754_finite s m e =>
      let sm := (if s then Z.neg m else Z.pos m) in
      if (0 <=? e)%Z then Z.eqb z (sm * 2 ^ e)
      else Z.eqb (z * 2 ^ (- e)) sm
  | S754_infinity _ | S754_nan => false
  end.

(** Python's [a == b] on stored values. *)
Definition py_eq (a b : value) : bool :=
  match a, b with
  | VBool x, VBool y => Bool.eqb x y
  | VBool x, VInt y => Z.eqb (int_of_bool x) y
  | VInt x, VBool y => Z.eqb x (int_of_bool y)
  | VInt x, VInt y => Z.eqb x y
  | VBool x, VFloat y => int_eq_float (int_of_bool x) y
  | VFloat x, VBool y => int_eq_float (int_of_bool y) x
  | VInt x, VFloat y => int_eq_float x y
  | VFloat x, VInt y => int_eq_float y x
  | VFloat x, VFloat y => PrimFloat.eqb x y
  | VStr x, VStr y => String.eqb x y
  | VDatetime x, VDatetime y => Z.eqb x y
  | _, _ => false
  end.

(** [float(n)] for a Python [int]: round to nearest even, [OverflowError]
    when the result does not fit a double. *)
Definition float_of_int (z : Z) : outcome float :=
  match binary_normalize prec emax z 0 false with
  | S754_infinity _ => Raises (OverflowError "int too large to convert to float")
  | sf => Returns (SF2Prim sf)
  end.

Fixpoint str_repeat (s : string) (n : nat) : string :=
  match n with
  | O => ""
  | S n' => String.append s (str_repeat s n')
  end.

(** Python's [v * n] for a stored value [v] and an [int] [n]. *)
Definition py_mul (v : value) (n : Z) : outcome value :=
  match v with
  | VBool b => Returns (VInt (int_of_bool b * n))
  | VInt z => Returns (VInt (z * n))
  | VFloat f => fn ←! float_of_int n; Returns (VFloat (f * fn)%float)
  | VStr s => Returns (VStr (str_repeat s (Z.to_nat n)))
  | VDatetime _ =>
      Raises (TypeError "unsupported operand type(s) for *: 'datetime.datetime' and 'int'")
  end.

(** ** Coroutines

    Calling an [async def] runs nothing: it builds a coroutine object, and
    [await] runs the body and yields its result. *)

Record coroutine (A : Type) := Coroutine { await : A }.
Arguments Coroutine {A} await.
Arguments await {A} c.

(** ** The fallback store *)

(** [l[:n]] on a Python list. *)
Definition py_slice_to {A} (l : list A) (n : Z) : list A :=
  if (0 <=? n)%Z then take (Z.to_nat n) l
  else take (Z.to_nat (Z.of_nat (length l) + n)) l.

(** Truth value of a Python [int]: only [0] is falsy. *)
Definition int_truthy (n : Z) : bool := negb (Z.eqb n 0).

Module InMemoryCursor.

(** [__init__(self, data)]: [self.data = data]. *)
Record t := new { data : list document }.

(** [async def to_list(self, length=None)]:
    [return self.data[:length] if length else self.data].
    [None] is falsy, an [int] is tested by [int_truthy]. *)
Definition to_list (self : t) (length : option Z) : coroutine (list document) :=
  Coroutine
    (match length with
     | None => data self
     | Some n => if int_truthy n then py_slice_to (data self) n else data self
     end).

End InMemoryCursor.

(** Result objects of the two insert methods. *)
Record InsertOneResult := { inserted_id : option value }.
Record InsertManyResult := { inserted_ids : list (option value) }.

(** The methods of [InMemoryCollection]. Each takes the list [self.data]
    refers to; the two inserts return the list after the call next to their
    result, the other methods leave it as it is. *)
Module InMemoryCollection.

(** The loop of [_matches_query] over [query.items()]. *)
Fixpoint matches_items (item : document) (items : list (string * value)) : bool :=
  match items with
  | [] => true
  | (key, v) :: rest =>
      match item !! key with
      | None => false
      | Some w => if negb (py_eq w v) then false else matches_items item rest
      end
  end.

(** [_matches_query(self, item, query)]. The loop has no effect besides its
    early [return False], so the order in which the items of the query are
    visited does not show in the result. *)
Definition _matches_query (item : document) (q : query) : bool :=
  matches_items item (map_to_list q).

(** The loop of [find]: [filtered] grows by [append]. *)
Fixpoint find_loop (q : query) (data filtered : list document) : list document :=
  match data with
  | [] => filtered
  | item :: rest =>
      find_loop q rest
        (if _matches_query item q then filtered ++ [item] else filtered)
  end.

(** [async def find(self, query=None)] *)
Definition find (data : list document) (q : option query)
  : coroutine InMemoryCursor.t :=
  Coroutine
    (match q with
     | None => InMemoryCursor.new data
     | Some q => InMemoryCursor.new (find_loop q data [])
     end).

(** [async def find_one(self, query)] *)
Fixpoint find_one_loop (q : query) (data : list document) : option document :=
  match data with
  | [] => None
  | item :: rest =>
      if _matches_query item q then Some item else find_one_loop q rest
  end.

Definition find_one (data : list document) (q : query)
  : coroutine (option document) :=
  Coroutine (find_one_loop q data).

(** [async def insert_one(self, document)] *)
Definition insert_one (data : list document) (doc : document)
  : coroutine (list document * InsertOneResult) :=
  Coroutine (data ++ [doc], {| inserted_id := doc !! "id" |}).

(** [async def insert_many(self, documents)] *)
Definition insert_many (data : list document) (documents : list document)
  : coroutine (list document * InsertManyResult) :=
  Coroutine (data ++ documents,
             {| inserted_ids := map (fun d : document => d !! "id") documents |}).

(** [async def count_documents(self, query=None)] *)
Fixpoint count_loop (q : query) (data : list document) (count : Z) : Z :=
  match data with
  | [] => count
  | item :: rest =>
      count_loop q rest (if _matches_query item q then (count + 1)%Z else count)
  end.

Definition count_documents (data : list document) (q : option query)
  : coroutine Z :=
  Coroutine
    (match q with
     | None => Z.of_nat (length data)
     | Some q => count_loop q data 0%Z
     end).

End InMemoryCollection.

(** [InMemoryDB]: [self.collections], a [dict] from collection name to the
    list of its documents. *)
Record InMemoryDB := { collections : gmap string (list document) }.

(** [InMemoryDB.__init__] *)
Definition InMemoryDB_init : InMemoryDB :=
  {| collections := {[ "menu" := []; "orders" := []; "status_checks" := [] ]} |}.

(** [get_collection(self, name)]: [InMemoryCollection(self.collections[name])].
    The collection object holds the very list stored under [name]. *)
Definition get_collection (db : InMemoryDB) (name : string) : outcome (list document) :=
  match collections db !! name with
  | Some data => Returns data
  | None => Raises (KeyError name)
  end.

(** An append through a collection object is seen by the database: both
    refer to one list. [store] writes the list after a call back under its
    name. *)
Definition store (db : InMemoryDB) (name : string) (data : list document) : InMemoryDB :=
  {| collections := <[name := data]> (collections db) |}.

(** ** Models

    Field validation is pydantic's. The handlers rely on it through the
    five validators below; what the properties use of them is that a value
    already of the field's type passes unchanged ([PydanticLaws]). *)

Class Pydantic := {
  validate_str : value -> outcome string;
  validate_int : value -> outcome Z;
  validate_float : value -> outcome float;
  validate_bool : value -> outcome bool;
  validate_datetime : value -> outcome Z
}.

Class PydanticLaws `{Pydantic} : Prop := {
  validate_str_str : forall s, validate_str (VStr s) = Returns s;
  validate_int_int : forall z, validate_int (VInt z) = Returns z;
  validate_float_float : forall f, validate_float (VFloat f) = Returns f;
  validate_bool_bool : forall b, validate_bool (VBool b) = Returns b;
  validate_datetime_datetime : forall t, validate_datetime (VDatetime t) = Returns t
}.

(** A required field of a model, read from the keyword arguments. *)
Definition required {A} (kw : document) (field : string)
    (validate : value -> outcome A) : outcome A :=
  match kw !! field with
  | Some v => validate v
  | None => Raises (ValidationError field)
  end.

(** A field with a default or a default factory. *)
Definition defaulted {A} (kw : document) (field : string)
    (validate : value -> outcome A) (default : A) : outcome A :=
  match kw !! field with
  | Some v => validate v
  | None => Returns default
  end.

(** What a handler draws from outside the program: the results of its calls
    of [uuid.uuid4()], in order, and of [datetime.utcnow()]. *)
Record Env := { uuid4 : nat -> string; utcnow : Z }.

Module CoffeeItem.
Record t := {
  id : string;
  name : string;
  origin : string;
  description : string;
  price : float;
  available : bool
}.

(** The constructor [CoffeeItem], applied to the keyword arguments [kw];
    [fresh] is what [uuid4] returns when the [id] is left to its default. *)
Definition new `{Pydantic} (fresh : string) (kw : document) : outcome t :=
  id ←! defaulted kw "id" validate_str fresh;
  name ←! required kw "name" validate_str;
  origin ←! required kw "origin" validate_str;
  description ←! required kw "description" validate_str;
  price ←! required kw "price" validate_float;
  available ←! defaulted kw "available" validate_bool true;
  Returns {| id := id; name := name; origin := origin;
             description := description; price := price;
             available := available |}.
End CoffeeItem.

Module OrderCreate.
Record t := {
  customer_name : string;
  coffee_id : string;
  quantity : Z
}.

(** [order_create.dict()] *)
Definition dict (self : t) : document :=
  {[ "customer_name" := VStr (customer_name self);
     "coffee_id" := VStr (coffee_id self);
     "quantity" := VInt (quantity self) ]}.
End OrderCreate.

Module Order.
Record t := {
  id : string;
  customer_name : string;
  coffee_id : string;
  coffee_name : string;
  quantity : Z;
  total_price : float;
  timestamp : Z;
  status : string
}.

(** The constructor [Order], applied to the keyword arguments [kw]. *)
Definition new `{Pydantic} (env : Env) (kw : document) : outcome t :=
  id ←! defaulted kw "id" validate_str (uuid4 env 0);
  customer_name ←! required kw "customer_name" validate_str;
  coffee_id ←! required kw "coffee_id" validate_str;
  coffee_name ←! required kw "coffee_name" validate_str;
  quantity ←! defaulted kw "quantity" validate_int 1%Z;
  total_price ←! required kw "total_price" validate_float;
  timestamp ←! defaulted kw "timestamp" validate_datetime (utcnow env);
  status ←! defaulted kw "status" validate_str "pending";
  Returns {| id := id; customer_name := customer_name;
             coffee_id := coffee_id; coffee_name := coffee_name;
             quantity := quantity; total_price := total_price;
             timestamp := timestamp; status := status |}.

(** [order.dict()] *)
Definition dict (self : t) : document :=
  {[ "id" := VStr (id self);
     "customer_name" := VStr (customer_name self);
     "coffee_id" := VStr (coffee_id self);
     "coffee_name" := VStr (coffee_name self);
     "quantity" := VInt (quantity self);
     "total_price" := VFloat (total_price self);
     "timestamp" := VDatetime (timestamp self);
     "status" := VStr (status self) ]}.
End Order.

Module ChatRequest.
Record t := { message : string; agent_type : string; context : option document }.
End ChatRequest.

Module ChatResponse.
Record t := {
  success : bool;
  response : string;
  agent_type : string;
  capabilities : list string;
  metadata : document;
  error : option string
}.
End ChatResponse.

Module SearchRequest.
Record t := { query : string; max_results : Z }.
End SearchRequest.

Module SearchResponse.
Record t := {
  success : bool;
  query : string;
  summary : string;
  search_results : option document;
  sources_count : Z;
  error : option string
}.
End SearchResponse.

(** ** Python runtime pieces the handlers use *)

(** [d[key]] on a [dict]. *)
Definition getitem (d : document) (key : string) : outcome value :=
  match d !! key with
  | Some v => Returns v
  | None => Raises (KeyError key)
  end.

(** [not x] for [x] a [dict] or [None]: [None] and the empty [dict] are
    falsy. *)
Definition py_not (x : option document) : bool :=
  match x with
  | None => true
  | Some d => Nat.eqb (size d) 0
  end.

(** The objects on which a handler looks up [to_list]: a cursor, or the
    coroutine object that a call of an [async def] returns. A coroutine
    object has no attribute of that name. *)
Inductive pyobject :=
| CursorObject (c : InMemoryCursor.t)
| CoroutineObject (c : coroutine InMemoryCursor.t).

Definition getattr_to_list (o : pyobject)
    : outcome (option Z -> coroutine (list document)) :=
  match o with
  | CursorObject c => Returns (InMemoryCursor.to_list c)
  | CoroutineObject _ =>
      Raises (AttributeError "'coroutine' object has no attribute 'to_list'")
  end.

(** [try: body except HTTPException: raise except Exception: raise
    HTTPException(500, detail)] *)
Definition reraise_http {A} (detail : string) (body : outcome A) : outcome A :=
  match body with
  | Returns a => Returns a
  | Raises (HTTPException code d) => Raises (HTTPException code d)
  | Raises _ => Raises (HTTPException 500 detail)
  end.


(** [order_data]: the fields of the request, then the three the handler
    adds. *)
Definition order_data (order_create : OrderCreate.t) (coffee_name total_price : value)
    : document :=
  <[ "status" := VStr "pending" ]>
    (<[ "total_price" := total_price ]>
       (<[ "coffee_name" := coffee_name ]> (OrderCreate.dict order_create))).

(** ** Coffee shop routes, with [db] an [InMemoryDB] *)

Section CoffeeShop.
Context `{Pydantic}.



(** [POST /orders]. The result comes with the database after the call. *)
Definition create_order (env : Env) (db : InMemoryDB) (order_create : OrderCreate.t)
    : outcome Order.t * InMemoryDB :=
  let body : outcome (Order.t * InMemoryDB) :=
    menu_collection ←! get_collection db "menu";
    orders_collection ←! get_collection db "orders";
    let coffee_item :=
      await (InMemoryCollection.find_one menu_collection
               {[ "id" := VStr (OrderCreate.coffee_id order_create);
                  "available" := VBool true ]}) in
    if py_not coffee_item then
      Raises (HTTPException 404 "Coffee item not found or unavailable")
    else
      match coffee_item with
      | None => Raises (TypeError "'NoneType' object is not subscriptable")
      | Some coffee_item =>
          price ←! getitem coffee_item "price";
          total_price ←! py_mul price (OrderCreate.quantity order_create);
          coffee_name ←! getitem coffee_item "name";
          order ←! Order.new env (order_data order_create coffee_name total_price);
          let '(orders, _) :=
            await (InMemoryCollection.insert_one orders_collection (Order.dict order)) in
          Returns (order, store db "orders" orders)
      end in
  match reraise_http "Failed to create order" body with
  | Returns (order, db') => (Returns order, db')
  | Raises e => (Raises e, db)
  end.

(** [GET /orders/{order_id}] *)
Definition get_order (env : Env) (db : InMemoryDB) (order_id : string)
    : outcome Order.t :=
  reraise_http "Failed to fetch order"
    (collection ←! get_collection db "orders";
     let order :=
       await (InMemoryCollection.find_one collection {[ "id" := VStr order_id ]}) in
     if py_not order then Raises (HTTPException 404 "Order not found")
     else
       match order with
       | None => Raises (TypeError "argument after ** must be a mapping")
       | Some order => Order.new env order
       end).

End CoffeeShop.

(** ** Start-up *)

(** [sample_menu], with the five identifiers drawn in order. *)
Definition sample_menu (env : Env) : list document :=
  [ {[ "id" := VStr (uuid4 env 0);
       "name" := VStr "Ethiopian Yirgacheffe";
       "origin" := VStr "Yirgacheffe, Ethiopia";
       "description" := VStr "Bright and floral with notes of lemon and tea-like qualities";
       "price" := VFloat 4.50%float;
       "available" := VBool true ]};
    {[ "id" := VStr (uuid4 env 1);
       "name" := VStr "Colombian Supremo";
       "origin" := VStr "Huila, Colombia";
       "description" := VStr "Medium body with chocolate and nutty undertones";
       "price" := VFloat 4.25%float;
       "available" := VBool true ]};
    {[ "id" := VStr (uuid4 env 2);
       "name" := VStr "Guatemalan Antigua";
       "origin" := VStr "Antigua, Guatemala";
       "description" := VStr "Full-bodied with smoky, spicy notes and bright acidity";
       "price" := VFloat 4.75%float;
       "available" := VBool true ]};
    {[ "id" := VStr (uuid4 env 3);
       "name" := VStr "Kenya AA";
       "origin" := VStr "Central Kenya";
       "description" := VStr "Wine-like acidity with blackcurrant and citrus notes";
       "price" := VFloat 5.00%float;
       "available" := VBool true ]};
    {[ "id" := VStr (uuid4 env 4);
       "name" := VStr "Brazil Santos";
       "origin" := VStr "São Paulo, Brazil";
       "description" := VStr "Smooth and balanced with chocolate and caramel sweetness";
       "price" := VFloat 4.00%float;
       "available" := VBool true ]} ].

(** [startup_event], its menu part. Nothing here is caught: an exception
    ends the start-up. *)
Definition startup_event (env : Env) (db : InMemoryDB) : outcome InMemoryDB :=
  collection ←! get_collection db "menu";
  let menu_count := await (InMemoryCollection.count_documents collection (Some ∅)) in
  if Z.eqb menu_count 0 then
    let '(menu, _) := await (InMemoryCollection.insert_many collection (sample_menu env)) in
    Returns (store db "menu" menu)
  else Returns db.

(** ** Agent routes *)

(** Modelled from the spec: the agent classes of [ai_agents.agents], which
    the handlers import and whose code is not among the sources. The
    external-interface section gives [execute(prompt, useTools?)] returning
    [{success, content, metadata, error}] and [getCapabilities()] returning a
    list of strings; either call, and the construction of an agent, can raise. *)
Module AgentResponse.
Record t := {
  success : bool;
  content : string;
  metadata : document;
  error : option string
}.
End AgentResponse.

Record Agent := {
  execute : string -> option bool -> outcome AgentResponse.t;
  get_capabilities : outcome (list string)
}.

(** [SearchAgent(agent_config)] and [ChatAgent(agent_config)]. *)
Class AgentLibrary := {
  SearchAgent : outcome Agent;
  ChatAgent : outcome Agent
}.

(** The module globals [search_agent] and [chat_agent]. *)
Record Agents := { search_agent : option Agent; chat_agent : option Agent }.

Definition is_None {A} (x : option A) : bool :=
  match x with None => true | Some _ => false end.

Section AgentRoutes.
Context `{Pydantic} `{AgentLibrary}.

(** [str(e)] for a caught exception. *)
Variable str : exception -> string.

(** The [if]/[elif] that builds the agent asked for when its global is
    still [None]. *)
Definition chat_init_agents (g : Agents) (agent_type : string) : outcome Agents :=
  if String.eqb agent_type "search" && is_None (search_agent g) then
    a ←! SearchAgent;
    Returns {| search_agent := Some a; chat_agent := chat_agent g |}
  else if String.eqb agent_type "chat" && is_None (chat_agent g) then
    a ←! ChatAgent;
    Returns {| search_agent := search_agent g; chat_agent := Some a |}
  else Returns g.

(** [agent = search_agent if request.agent_type == "search" else chat_agent] *)
Definition selected_agent (g : Agents) (agent_type : string) : option Agent :=
  if String.eqb agent_type "search" then search_agent g else chat_agent g.

(** The [try] block of [chat_with_agent], after the globals are set. *)
Definition chat_try (g : Agents) (request : ChatRequest.t) : outcome ChatResponse.t :=
  match selected_agent g (ChatRequest.agent_type request) with
  | None => Raises (HTTPException 500 "Failed to initialize agent")
  | Some agent =>
      response ←! execute agent (ChatRequest.message request) None;
      capabilities ←! get_capabilities agent;
      Returns {| ChatResponse.success := AgentResponse.success response;
                 ChatResponse.response := AgentResponse.content response;
                 ChatResponse.agent_type := ChatRequest.agent_type request;
                 ChatResponse.capabilities := capabilities;
                 ChatResponse.metadata := AgentResponse.metadata response;
                 ChatResponse.error := AgentResponse.error response |}
  end.

(** [POST /chat]. The result comes with the globals after the call; an
    agent whose construction raised is not assigned. *)
Definition chat_with_agent (g : Agents) (request : ChatRequest.t)
    : outcome ChatResponse.t * Agents :=
  let init := chat_init_agents g (ChatRequest.agent_type request) in
  let g' := match init with Returns g1 => g1 | Raises _ => g end in
  match (g1 ←! init; chat_try g1 request) with
  | Returns r => (Returns r, g')
  | Raises e =>
      (Returns {| ChatResponse.success := false;
                  ChatResponse.response := "";
                  ChatResponse.agent_type := ChatRequest.agent_type request;
                  ChatResponse.capabilities := [];
                  ChatResponse.metadata := ∅;
                  ChatResponse.error := Some (str e) |}, g')
  end.

Definition search_init_agent (g : Agents) : outcome Agents :=
  if is_None (search_agent g) then
    a ←! SearchAgent;
    Returns {| search_agent := Some a; chat_agent := chat_agent g |}
  else Returns g.

Definition search_prompt (q : string) : string :=
  String.append "Search for information about: "
    (String.append q ". Provide a comprehensive summary with key findings.").

(** The [try] block of [search_and_summarize], after the global is set. *)
Definition search_try (g : Agents) (request : SearchRequest.t)
    : outcome SearchResponse.t :=
  match search_agent g with
  | None => Raises (AttributeError "'NoneType' object has no attribute 'execute'")
  | Some agent =>
      result ←! execute agent (search_prompt (SearchRequest.query request)) (Some true);
      if AgentResponse.success result then
        sources_count ←!
          validate_int
            (default (VInt 0) (AgentResponse.metadata result !! "tools_used"));
        Returns {| SearchResponse.success := true;
                   SearchResponse.query := SearchRequest.query request;
                   SearchResponse.summary := AgentResponse.content result;
                   SearchResponse.search_results := Some (AgentResponse.metadata result);
                   SearchResponse.sources_count := sources_count;
                   SearchResponse.error := None |}
      else
        Returns {| SearchResponse.success := false;
                   SearchResponse.query := SearchRequest.query request;
                   SearchResponse.summary := "";
                   SearchResponse.search_results := None;
                   SearchResponse.sources_count := 0;
                   SearchResponse.error := AgentResponse.error result |}
  end.

(** [POST /search] *)
Definition search_and_summarize (g : Agents) (request : SearchRequest.t)
    : outcome SearchResponse.t * Agents :=
  let init := search_init_agent g in
  let g' := match init with Returns g1 => g1 | Raises _ => g end in
  match (g1 ←! init; search_try g1 request) with
  | Returns r => (Returns r, g')
  | Raises e =>
      (Returns {| SearchResponse.success := false;
                  SearchResponse.query := SearchRequest.query request;
                  SearchResponse.summary := "";
                  SearchResponse.search_results := None;
                  SearchResponse.sources_count := 0;
                  SearchResponse.error := Some (str e) |}, g')
  end.

End AgentRoutes.

(** The call chains [db.get_collection(name).insert_one(document)] and
    [db.get_collection(name).insert_many(documents)], awaited. *)
Definition db_insert_one (db : InMemoryDB) (name : string) (doc : document)
    : outcome (InMemoryDB * InsertOneResult) :=
  collection ←! get_collection db name;
  let '(data, result) := await (InMemoryCollection.insert_one collection doc) in
  Returns (store db name data, result).

Definition db_insert_many (db : InMemoryDB) (name : string) (documents : list document)
    : outcome (InMemoryDB * InsertManyResult) :=
  collection ←! get_collection db name;
  let '(data, result) := await (InMemoryCollection.insert_many collection documents) in
  Returns (store db name data, result).

(** ** Data for the examples *)

(** Validators that admit exactly the values already of the field's type. *)
Definition strict_pydantic : Pydantic := {|
  validate_str v := match v with VStr s => Returns s | _ => Raises (ValidationError "str") end;
  validate_int v := match v with VInt z => Returns z | _ => Raises (ValidationError "int") end;
  validate_float v :=
    match v with VFloat f => Returns f | _ => Raises (ValidationError "float") end;
  validate_bool v :=
    match v with VBool b => Returns b | _ => Raises (ValidationError "bool") end;
  validate_datetime v :=
    match v with VDatetime t => Returns t | _ => Raises (ValidationError "datetime") end
|}.

(** Identifiers [seed-0], [seed-1], ... for the start-up, and [order-0], ...
    for a request. *)
Definition seed_env : Env :=
  {| uuid4 := fun k => String.append "seed-" (pretty k); utcnow := 0 |}.
Definition request_env : Env :=
  {| uuid4 := fun k => String.append "order-" (pretty k); utcnow := 1000000 |}.

(** The database after a start-up on the empty store. *)
Definition seeded_db : InMemoryDB := store InMemoryDB_init "menu" (sample_menu seed_env).

(** Two of the first item, as in the scenario of the repository's tests. *)
Definition two_yirgacheffe : OrderCreate.t :=
  {| OrderCreate.customer_name := "A";
     OrderCreate.coffee_id := "seed-0";
     OrderCreate.quantity := 2 |}.

(** The order that request creates on [seeded_db]. *)
Definition first_order : Order.t :=
  {| Order.id := "order-0";
     Order.customer_name := "A";
     Order.coffee_id := "seed-0";
     Order.coffee_name := "Ethiopian Yirgacheffe";
     Order.quantity := 2;
     Order.total_price := 9%float;
     Order.timestamp := 1000000;
     Order.status := "pending" |}.

(** The store after that order, a later request on it, and its order. *)
Definition one_order_db : InMemoryDB :=
  store seeded_db "orders" [Order.dict first_order].
Definition later_env : Env :=
  {| uuid4 := fun k => String.append "later-" (pretty k); utcnow := 2000000 |}.
Definition second_order : Order.t :=
  {| Order.id := "later-0";
     Order.customer_name := "A";
     Order.coffee_id := "seed-0";
     Order.coffee_name := "Ethiopian Yirgacheffe";
     Order.quantity := 2;
     Order.total_price := 9%float;
     Order.timestamp := 2000000;
     Order.status := "pending" |}.


(** A menu whose one item is not available. *)
Definition sold_out_db : InMemoryDB :=
  store InMemoryDB_init "menu"
    [ {[ "id" := VStr "decaf"; "name" := VStr "Decaf"; "origin" := VStr "None";
         "description" := VStr "Gone"; "price" := VFloat 3%float;
         "available" := VBool false ]} ].

(** An agent whose [execute] raises, one that reports a failure, and a
    library that builds them. *)
Definition raising_agent : Agent :=
  {| execute := fun _ _ => Raises (AgentError "connection refused");
     get_capabilities := Returns ["chat"] |}.

Definition refusing_agent : Agent :=
  {| execute := fun _ _ =>
       Returns {| AgentResponse.success := false;
                  AgentResponse.content := "";
                  AgentResponse.metadata := ∅;
                  AgentResponse.error := Some "quota exceeded" |};
     get_capabilities := Returns ["search"] |}.

Definition failing_library : AgentLibrary :=
  {| SearchAgent := Returns refusing_agent; ChatAgent := Returns raising_agent |}.

Definition message_of (e : exception) : string :=
  match e with
  | AttributeError msg | TypeError msg | OverflowError msg | AgentError msg => msg
  | KeyError key => key
  | ValidationError field => field
  | HTTPException _ detail => detail
  end.

(** ** The filter of a query, in the words of the specification

    A record satisfies a filter when every field of the filter is present in
    the record with an equal value, equal in the sense of Python's [==]. *)
Definition field_equal (r : document) (key : string) (v : value) : Prop :=
  exists w, r !! key = Some w /\ py_eq w v = true.

Definition satisfies (q : query) (r : document) : Prop :=
  map_Forall (field_equal r) q.

#[global] Instance field_equal_dec (r : document) (key : string) (v : value) :
  Decision (field_equal r key v).
Proof.
  unfold field_equal. destruct (r !! key) as [w|].
  - destruct (py_eq w v) eqn:Heq.
    + left. exists w. split; [reflexivity | exact Heq].
    + right. intros [w' [[= <-] Hw']]. congruence.
  - right. intros [w' [Hw' _]]. discriminate.
Defined.

#[global] Instance satisfies_dec (q : query) (r : document) : Decision (satisfies q r) :=
  map_Forall_dec (field_equal r) q.

(** ** The status routes *)

Module StatusCheckCreate.
Record t := { client_name : string }.

(** [input.dict()] *)
Definition dict (self : t) : document :=
  {[ "client_name" := VStr (client_name self) ]}.
End StatusCheckCreate.

Module StatusCheck.
Record t := {
  id : string;
  client_name : string;
  timestamp : Z
}.

(** The constructor [StatusCheck], applied to the keyword arguments [kw];
    [fresh] is what [uuid4] returns when the [id] is left to its default. *)
Definition new `{Pydantic} (fresh : string) (now : Z) (kw : document) : outcome t :=
  id ←! defaulted kw "id" validate_str fresh;
  client_name ←! required kw "client_name" validate_str;
  timestamp ←! defaulted kw "timestamp" validate_datetime now;
  Returns {| id := id; client_name := client_name; timestamp := timestamp |}.

(** [status_obj.dict()] *)
Definition dict (self : t) : document :=
  {[ "id" := VStr (id self);
     "client_name" := VStr (client_name self);
     "timestamp" := VDatetime (timestamp self) ]}.
End StatusCheck.

Section StatusRoutes.
Context `{Pydantic}.

(** [POST /status]. Nothing is caught here: an exception leaves the handler
    as it is. *)
Definition create_status_check (env : Env) (db : InMemoryDB)
    (input : StatusCheckCreate.t) : outcome StatusCheck.t * InMemoryDB :=
  let body : outcome (StatusCheck.t * InMemoryDB) :=
    collection ←! get_collection db "status_checks";
    let status_dict := StatusCheckCreate.dict input in
    status_obj ←! StatusCheck.new (uuid4 env 0) (utcnow env) status_dict;
    let '(status_checks, _) :=
      await (InMemoryCollection.insert_one collection (StatusCheck.dict status_obj)) in
    Returns (status_obj, store db "status_checks" status_checks) in
  match body with
  | Returns (status_obj, db') => (Returns status_obj, db')
  | Raises e => (Raises e, db)
  end.

(** The comprehension of [get_status_checks]; [drawn] counts the calls of
    [uuid4] so far, and the clock reads [utcnow env]. *)
Fixpoint status_objects (env : Env) (drawn : nat) (status_checks : list document)
    : outcome (list StatusCheck.t) :=
  match status_checks with
  | [] => Returns []
  | status_check :: rest =>
      status ←! StatusCheck.new (uuid4 env drawn) (utcnow env) status_check;
      statuses ←!
        status_objects env
          (match status_check !! "id" with Some _ => drawn | None => S drawn end) rest;
      Returns (status :: statuses)
  end.

(** [GET /status]. As in [get_menu], [collection.find()] is not awaited; here
    no [try] surrounds it. *)
Definition get_status_checks (env : Env) (db : InMemoryDB)
    : outcome (list StatusCheck.t) :=
  collection ←! get_collection db "status_checks";
  to_list ←! getattr_to_list
    (CoroutineObject (InMemoryCollection.find collection None));
  let status_checks := await (to_list (Some 1000%Z)) in
  status_objects env 0 status_checks.

End StatusRoutes.

(** ** The capabilities route *)

(** The two shapes of the [dict] that [get_agent_capabilities] returns:
    [{"success": True, "capabilities": {"search_agent": .., "chat_agent": ..}}]
    and [{"success": False, "error": ..}]. *)
Inductive CapabilitiesResult :=
| CapabilitiesSuccess (search_agent chat_agent : list string)
| CapabilitiesFailure (error : string).

Section CapabilitiesRoute.
Context `{AgentLibrary}.
Variable str : exception -> string.

(** [GET /agents/capabilities]: both agents are built anew, the globals are
    not read. *)
Definition get_agent_capabilities : CapabilitiesResult :=
  match (search ←! SearchAgent;
         search_capabilities ←! get_capabilities search;
         chat ←! ChatAgent;
         chat_capabilities ←! get_capabilities chat;
         Returns (search_capabilities, chat_capabilities)) with
  | Returns (search_capabilities, chat_capabilities) =>
      CapabilitiesSuccess search_capabilities chat_capabilities
  | Raises e => CapabilitiesFailure (str e)
  end.

End CapabilitiesRoute.

(** ** The life of the store

    The requests that write to the store, and the store after a sequence of
    them. A request that raises leaves the store as it was. *)
Inductive request :=
| Startup (env : Env)
| PostOrder (env : Env) (order_create : OrderCreate.t)
| PostStatus (env : Env) (input : StatusCheckCreate.t).

Definition serve `{Pydantic} (db : InMemoryDB) (r : request) : InMemoryDB :=
  match r with
  | Startup env =>
      match startup_event env db with
      | Returns db' => db'
      | Raises _ => db
      end
  | PostOrder env order_create => (create_order env db order_create).2
  | PostStatus env input => (create_status_check env db input).2
  end.

Definition serve_all `{Pydantic} (db : InMemoryDB) (requests : list request)
    : InMemoryDB :=
  foldl serve db requests.

(** Validators whose every failure is pydantic's [ValidationError]. *)
Class PydanticErrors `{Pydantic} : Prop := {
  validate_str_error : forall v e, validate_str v = Raises e -> exists f, e = ValidationError f;
  validate_int_error : forall v e, validate_int v = Raises e -> exists f, e = ValidationError f;
  validate_float_error :
    forall v e, validate_float v = Raises e -> exists f, e = ValidationError f;
  validate_bool_error :
    forall v e, validate_bool v = Raises e -> exists f, e = ValidationError f;
  validate_datetime_error :
    forall v e, validate_datetime v = Raises e -> exists f, e = ValidationError f
}.

(** [insert_one] called once for each of [documents], in order: the list and
    the identifiers returned so far are carried along. *)
Fixpoint insert_each (data : list document) (ids : list (option value))
    (documents : list document) : list document * list (option value) :=
  match documents with
  | [] => (data, ids)
  | doc :: rest =>
      let '(data', result) := await (InMemoryCollection.insert_one data doc) in
      insert_each data' (ids ++ [inserted_id result]) rest
  end.


Definition ping : StatusCheckCreate.t := {| StatusCheckCreate.client_name := "probe" |}.

Definition answering_agent : Agent :=
  {| execute := fun prompt _ =>
       Returns {| AgentResponse.success := true;
                  AgentResponse.content := String.append "about: " prompt;
                  AgentResponse.metadata := {[ "tools_used" := VInt 2 ]};
                  AgentResponse.error := None |};
     get_capabilities := Returns ["search"; "summarize"] |}.

Definition answering_library : AgentLibrary :=
  {| SearchAgent := Returns answering_agent; ChatAgent := Returns answering_agent |}.

Definition broken_library : AgentLibrary :=
  {| SearchAgent := Raises (AgentError "no api key");
     ChatAgent := Raises (AgentError "no api key") |}.

(** A menu whose one item has no price, and an order document without its
    customer. *)
Definition priceless_db : InMemoryDB :=
  store InMemoryDB_init "menu"
    [ {[ "id" := VStr "mystery"; "name" := VStr "Mystery"; "available" := VBool true ]} ].

Definition mystery_order : OrderCreate.t :=
  {| OrderCreate.customer_name := "C";
     OrderCreate.coffee_id := "mystery";
     OrderCreate.quantity := 1 |}.

Definition torn_orders_db : InMemoryDB :=
  store seeded_db "orders" [ {[ "id" := VStr "torn"; "quantity" := VInt 1 ]} ].

(** ** What the stored documents look like

    The menu is empty or the catalog of some start-up. *)
Definition is_catalog (menu : list document) : Prop :=
  menu = [] \/ exists env, menu = sample_menu env.

(** The store holds its three collections and no other, and its menu is a
    catalog. *)
Definition shaped (db : InMemoryDB) : Prop :=
  exists menu orders status_checks,
    get_collection db "menu" = Returns menu
    /\ get_collection db "orders" = Returns orders
    /\ get_collection db "status_checks" = Returns status_checks
    /\ (forall name, name <> "menu" -> name <> "orders" -> name <> "status_checks" ->
          get_collection db name = Raises (KeyError name))
    /\ is_catalog menu.

(** A document is the [dict] of a pending order billed from an available
    record of the menu: the order bears the record's identifier and name, and
    its total is the record's price times the quantity. *)
Definition billed_from (menu : list document) (d : document) : Prop :=
  exists (order : Order.t) (item : document) (price quantity : float),
    d = Order.dict order
    /\ Order.status order = "pending"
    /\ item ∈ menu
    /\ item !! "id" = Some (VStr (Order.coffee_id order))
    /\ item !! "available" = Some (VBool true)
    /\ item !! "name" = Some (VStr (Order.coffee_name order))
    /\ item !! "price" = Some (VFloat price)
    /\ float_of_int (Order.quantity order) = Returns quantity
    /\ Order.total_price order = (price * quantity)%float.

(** The orders of a store are billed from its menu. *)
Definition billed (db : InMemoryDB) : Prop :=
  forall menu orders,
    get_collection db "menu" = Returns menu ->
    get_collection db "orders" = Returns orders ->
    Forall (billed_from menu) orders.

(** A request to an agent kind the handler does not know. *)
Definition tea_request : ChatRequest.t :=
  {| ChatRequest.message := "hello"; ChatRequest.agent_type := "tea";
     ChatRequest.context := None |}.


Definition arabica_request : SearchRequest.t :=
  {| SearchRequest.query := "arabica"; SearchRequest.max_results := 5 |}.

Definition no_agents : Agents := {| search_agent := None; chat_agent := None |}.

(** One field of a model at a time: the lookup, then the validator. *)
Ltac validation_step :=
  match goal with
  | |- context [bind (match ?kw !! ?k with _ => _ end) _] =>
      destruct (kw !! k); simpl
  | |- context [bind (validate_str ?v) _] =>
      let E := fresh "E" in destruct (validate_str v) eqn:E; simpl
  | |- context [bind (validate_int ?v) _] =>
      let E := fresh "E" in destruct (validate_int v) eqn:E; simpl
  | |- context [bind (validate_float ?v) _] =>
      let E := fresh "E" in destruct (validate_float v) eqn:E; simpl
  | |- context [bind (validate_datetime ?v) _] =>
      let E := fresh "E" in destruct (validate_datetime v) eqn:E; simpl
  | |- Returns _ = Raises _ -> _ => discriminate
  | E : _ = Raises ?e0 |- Raises ?e0 = Raises _ -> _ =>
      intros [= <-];
      first [ exact (validate_str_error _ _ E)
            | exact (validate_int_error _ _ E)
            | exact (validate_float_error _ _ E)
            | exact (validate_datetime_error _ _ E) ]
  | |- Raises (ValidationError ?f) = Raises _ -> _ =>
      intros [= <-]; exists f; reflexivity
  end.

(** * Properties of the record store *)

Section RecordStore.
Import InMemoryCollection.

Lemma matches_items_Forall (item : document) (items : list (string * value)) :
  matches_items item items = true <->
  Forall (fun kv => exists w, item !! kv.1 = Some w /\ py_eq w kv.2 = true) items.
Proof.
  induction items as [|[key v] rest IH]; simpl.
  - split; [constructor | reflexivity].
  - destruct (item !! key) as [w|] eqn:Hk.
    + destruct (py_eq w v) eqn:Hv; simpl.
      * rewrite IH. split.
        -- intros Hrest. constructor; [exists w; simpl; auto | exact Hrest].
        -- intros Hall. inversion Hall; assumption.
      * split; [discriminate |].
        intros Hall. inversion Hall as [|? ? [w' [Hw' Heq]] ?]; subst.
        simpl in *. congruence.
    + split; [discriminate |].
      intros Hall. inversion Hall as [|? ? [w' [Hw' Heq]] ?]; subst.
      simpl in *. congruence.
Qed.

Lemma matches_query_satisfies (item : document) (q : query) :
  _matches_query item q = true <-> satisfies q item.
Proof.
  unfold _matches_query, satisfies, field_equal.
  rewrite matches_items_Forall, Forall_forall. split.
  - intros Hall key v Hq.
    apply (Hall (key, v)). apply elem_of_map_to_list. exact Hq.
  - intros Hsat [key v] Hin.
    apply elem_of_map_to_list in Hin. simpl. apply (Hsat key v Hin).
Qed.

Lemma find_loop_filter (q : query) (data filtered : list document) :
  find_loop q data filtered = filtered ++ filter (satisfies q) data.
Proof.
  revert filtered. induction data as [|item rest IH]; intros filtered; simpl.
  - rewrite filter_nil, app_nil_r. reflexivity.
  - rewrite IH. destruct (_matches_query item q) eqn:Hm.
    + rewrite filter_cons_True by (apply matches_query_satisfies; exact Hm).
      rewrite <- app_assoc. reflexivity.
    + rewrite filter_cons_False; [reflexivity |].
      intros Hs. apply matches_query_satisfies in Hs. congruence.
Qed.

Lemma find_one_loop_head (q : query) (data : list document) :
  find_one_loop q data = head (filter (satisfies q) data).
Proof.
  induction data as [|item rest IH]; simpl; [reflexivity |].
  destruct (_matches_query item q) eqn:Hm.
  - rewrite filter_cons_True by (apply matches_query_satisfies; exact Hm).
    reflexivity.
  - rewrite filter_cons_False; [exact IH |].
    intros Hs. apply matches_query_satisfies in Hs. congruence.
Qed.

(** C6. [find] with a filter returns exactly the records that satisfy it,
    in insertion order, and [find_one] the first of them, or [None] when
    there is none. A field of the filter that a record lacks makes the
    record a non-match. *)
Theorem find_returns_matching_records (data : list document) (q : query) :
  InMemoryCursor.data (await (find data (Some q))) = filter (satisfies q) data
  /\ await (find_one data q) = head (filter (satisfies q) data)
  /\ (forall r key, is_Some (q !! key) -> r !! key = None -> ~ satisfies q r).
Proof.
  split; [| split].
  - simpl. apply find_loop_filter.
  - simpl. apply find_one_loop_head.
  - intros r key [v Hq] Hr Hs. destruct (Hs key v Hq) as [w [Hw _]]. congruence.
Qed.

Lemma to_list_no_limit (self : InMemoryCursor.t) :
  await (InMemoryCursor.to_list self None) = InMemoryCursor.data self.
Proof. reflexivity. Qed.

Lemma to_list_zero_limit (self : InMemoryCursor.t) :
  await (InMemoryCursor.to_list self (Some 0%Z)) = InMemoryCursor.data self.
Proof. reflexivity. Qed.

(** C7, as stated, fails at the limit [0], which [to_list] takes for no
    limit: the cursor returns both of its records, not the first none. It
    fails at a negative limit too, where the slice drops records from the
    end. *)
Lemma to_list_limit_zero_returns_all :
  let a : document := {[ "id" := VStr "a" ]} in
  let b : document := {[ "id" := VStr "b" ]} in
  await (InMemoryCursor.to_list (InMemoryCursor.new [a; b]) (Some 0%Z)) = [a; b]
  /\ await (InMemoryCursor.to_list (InMemoryCursor.new [a; b]) (Some 0%Z))
     <> take (Z.to_nat 0) [a; b]
  /\ await (InMemoryCursor.to_list (InMemoryCursor.new [a; b]) (Some (-1)%Z)) = [a]
  /\ await (InMemoryCursor.to_list (InMemoryCursor.new [a; b]) (Some (-1)%Z))
     <> take (Z.to_nat (-1)) [a; b].
Proof.
  split; [reflexivity |]. split; [simpl; discriminate |].
  split; [reflexivity |]. simpl. discriminate.
Qed.

(** C7, amended. For a positive limit [to_list] returns the first
    limit-many records of the cursor (all of them when it holds fewer), and
    with no limit it returns all of its records. *)
Theorem to_list_truncates_to_positive_limit (self : InMemoryCursor.t) (n : Z) :
  (0 < n)%Z ->
  await (InMemoryCursor.to_list self (Some n))
    = take (Z.to_nat n) (InMemoryCursor.data self)
  /\ await (InMemoryCursor.to_list self None) = InMemoryCursor.data self.
Proof.
  intros Hn. split; [| reflexivity].
  simpl. unfold int_truthy, py_slice_to.
  destruct (Z.eqb_spec n 0) as [-> | _]; [lia |].
  simpl. destruct (Z.leb_spec 0 n); [reflexivity | lia].
Qed.

Lemma to_list_truncates_witness :
  let a : document := {[ "id" := VStr "a" ]} in
  let b : document := {[ "id" := VStr "b" ]} in
  let c : document := {[ "id" := VStr "c" ]} in
  await (InMemoryCursor.to_list (InMemoryCursor.new [a; b; c]) (Some 2%Z)) = [a; b]
  /\ await (InMemoryCursor.to_list (InMemoryCursor.new [a; b; c]) None) = [a; b; c].
Proof.
  apply (to_list_truncates_to_positive_limit
           (InMemoryCursor.new [ {[ "id" := VStr "a" ]}; {[ "id" := VStr "b" ]};
                                 {[ "id" := VStr "c" ]} ]) 2).
  lia.
Defined.

Lemma get_collection_store_eq (db : InMemoryDB) (name : string) (data : list document) :
  get_collection (store db name data) name = Returns data.
Proof. unfold get_collection, store. simpl. rewrite lookup_insert_eq. reflexivity. Qed.

Lemma get_collection_store_ne (db : InMemoryDB) (name other : string)
    (data : list document) :
  other <> name ->
  get_collection (store db name data) other = get_collection db other.
Proof.
  intros Hne. unfold get_collection, store. simpl.
  rewrite lookup_insert_ne by congruence. reflexivity.
Qed.

(** C9. [insert_one] puts its record at the end of the collection's list,
    whatever identifiers the list already holds, and returns the record's
    [id]; [insert_many] puts its records at the end in order and returns
    their [id]s in order. The records stored before keep their positions,
    and the other collections are as they were. *)
Theorem insert_appends_and_keeps_records (db : InMemoryDB) (name : string)
    (data : list document) (doc : document) (documents : list document) :
  get_collection db name = Returns data ->
  (exists db',
      db_insert_one db name doc = Returns (db', {| inserted_id := doc !! "id" |})
      /\ get_collection db' name = Returns (data ++ [doc])
      /\ (forall other, other <> name ->
            get_collection db' other = get_collection db other))
  /\ (exists db',
      db_insert_many db name documents
        = Returns (db', {| inserted_ids := map (fun d : document => d !! "id") documents |})
      /\ get_collection db' name = Returns (data ++ documents)
      /\ (forall other, other <> name ->
            get_collection db' other = get_collection db other))
  /\ (forall (i : nat) r, data !! i = Some r ->
        (data ++ [doc]) !! i = Some r /\ (data ++ documents) !! i = Some r)
  /\ (data ++ [doc]) !! length data = Some doc
  /\ (forall (j : nat), (data ++ documents) !! (length data + j)%nat = documents !! j).
Proof.
  intros Hdata. split; [| split; [| split; [| split]]].
  - exists (store db name (data ++ [doc])).
    unfold db_insert_one. rewrite Hdata. simpl.
    split; [reflexivity |]. split.
    + apply get_collection_store_eq.
    + intros other Hne. apply get_collection_store_ne. exact Hne.
  - exists (store db name (data ++ documents)).
    unfold db_insert_many. rewrite Hdata. simpl.
    split; [reflexivity |]. split.
    + apply get_collection_store_eq.
    + intros other Hne. apply get_collection_store_ne. exact Hne.
  - intros i r Hi. split; apply lookup_app_l_Some; exact Hi.
  - rewrite lookup_app_r by lia. rewrite Nat.sub_diag. reflexivity.
  - intros j. rewrite lookup_app_r by lia.
    replace (length data + j - length data)%nat with j by lia. reflexivity.
Qed.

Lemma insert_appends_witness :
  exists db',
    db_insert_one one_order_db "orders" (Order.dict first_order)
      = Returns (db', {| inserted_id := Some (VStr "order-0") |})
    /\ get_collection db' "orders"
       = Returns [Order.dict first_order; Order.dict first_order]
    /\ get_collection db' "menu" = get_collection one_order_db "menu".
Proof.
  destruct (insert_appends_and_keeps_records one_order_db "orders"
              [Order.dict first_order] (Order.dict first_order) [] eq_refl)
    as [[db' [Hone [Hsame Hother]]] _].
  exists db'. split; [exact Hone |]. split; [exact Hsame |].
  apply Hother. discriminate.
Defined.

Lemma matches_empty_query (item : document) : _matches_query item ∅ = true.
Proof. unfold _matches_query. rewrite map_to_list_empty. reflexivity. Qed.

Lemma count_loop_empty_query (data : list document) (count : Z) :
  count_loop ∅ data count = (count + Z.of_nat (length data))%Z.
Proof.
  revert count. induction data as [|item rest IH]; intros count; simpl length.
  - simpl. lia.
  - simpl count_loop. rewrite matches_empty_query, IH. lia.
Qed.

Lemma count_documents_empty_query (data : list document) :
  await (count_documents data (Some ∅)) = Z.of_nat (length data).
Proof. simpl. rewrite count_loop_empty_query. lia. Qed.

End RecordStore.

(** * Properties of the coffee shop routes *)

Section CoffeeShopProperties.
Import InMemoryCollection.
Context `{Pydantic} `{!PydanticLaws}.

Lemma py_eq_str (w : value) (s : string) : py_eq w (VStr s) = true <-> w = VStr s.
Proof.
  destruct w; simpl; try (split; [discriminate | intros; discriminate]).
  rewrite String.eqb_eq. split; congruence.
Qed.

(** The filter of [create_order]: the identifier and the availability flag. *)
Lemma satisfies_id_available (coffee_id : string) (r : document) :
  satisfies {[ "id" := VStr coffee_id; "available" := VBool true ]} r <->
  r !! "id" = Some (VStr coffee_id)
  /\ exists a, r !! "available" = Some a /\ py_eq a (VBool true) = true.
Proof.
  unfold satisfies. split.
  - intros Hs. split.
    + destruct (Hs "id" (VStr coffee_id)) as [w [Hw Heq]]; [reflexivity |].
      apply py_eq_str in Heq. congruence.
    + apply (Hs "available" (VBool true)). reflexivity.
  - intros [Hid [a [Ha Heq]]] key v Hq.
    apply lookup_insert_Some in Hq as [[<- <-] | [Hne Hq]].
    + exists (VStr coffee_id). split; [exact Hid | apply py_eq_str; reflexivity].
    + apply lookup_singleton_Some in Hq as [<- <-]. exists a. split; assumption.
Qed.

(** The filter of [get_order]: the identifier alone. *)
Lemma satisfies_id (order_id : string) (r : document) :
  satisfies {[ "id" := VStr order_id ]} r <-> r !! "id" = Some (VStr order_id).
Proof.
  unfold satisfies. split.
  - intros Hs. destruct (Hs "id" (VStr order_id)) as [w [Hw Heq]].
    + apply lookup_singleton_eq.
    + apply py_eq_str in Heq. congruence.
  - intros Hid key v Hq. apply lookup_singleton_Some in Hq as [<- <-].
    exists (VStr order_id). split; [exact Hid | apply py_eq_str; reflexivity].
Qed.

Lemma find_one_loop_none (q : query) (data : list document) :
  Forall (fun r => ~ satisfies q r) data -> find_one_loop q data = None.
Proof.
  induction 1 as [|r rest Hr _ IH]; simpl; [reflexivity |].
  destruct (_matches_query r q) eqn:Hm; [| exact IH].
  apply matches_query_satisfies in Hm. contradiction.
Qed.

Lemma find_one_loop_app (q : query) (data : list document) (r : document) :
  Forall (fun r => ~ satisfies q r) data -> satisfies q r ->
  find_one_loop q (data ++ [r]) = Some r.
Proof.
  intros Hnone Hr. induction Hnone as [|x rest Hx _ IH]; simpl.
  - apply matches_query_satisfies in Hr. rewrite Hr. reflexivity.
  - destruct (_matches_query x q) eqn:Hm; [| exact IH].
    apply matches_query_satisfies in Hm. contradiction.
Qed.

Lemma py_not_found (d : document) (key : string) (v : value) :
  d !! key = Some v -> py_not (Some d) = false.
Proof.
  intros Hk. simpl. apply Nat.eqb_neq. intros Hsize.
  apply map_size_empty_iff in Hsize. subst d.
  rewrite lookup_empty in Hk. discriminate.
Qed.

Lemma Order_new_order_data (env : Env) (order_create : OrderCreate.t)
    (coffee_name total_price : value) (order : Order.t) :
  Order.new env (order_data order_create coffee_name total_price) = Returns order ->
  Order.id order = uuid4 env 0
  /\ Order.customer_name order = OrderCreate.customer_name order_create
  /\ Order.coffee_id order = OrderCreate.coffee_id order_create
  /\ validate_str coffee_name = Returns (Order.coffee_name order)
  /\ Order.quantity order = OrderCreate.quantity order_create
  /\ validate_float total_price = Returns (Order.total_price order)
  /\ Order.timestamp order = utcnow env
  /\ Order.status order = "pending".
Proof.
  unfold Order.new, required, defaulted.
  set (kw := order_data order_create coffee_name total_price).
  assert (kw !! "id" = None) as -> by reflexivity.
  assert (kw !! "customer_name" = Some (VStr (OrderCreate.customer_name order_create)))
    as -> by reflexivity.
  assert (kw !! "coffee_id" = Some (VStr (OrderCreate.coffee_id order_create)))
    as -> by reflexivity.
  assert (kw !! "coffee_name" = Some coffee_name) as -> by reflexivity.
  assert (kw !! "quantity" = Some (VInt (OrderCreate.quantity order_create)))
    as -> by reflexivity.
  assert (kw !! "total_price" = Some total_price) as -> by reflexivity.
  assert (kw !! "timestamp" = None) as -> by reflexivity.
  assert (kw !! "status" = Some (VStr "pending")) as -> by reflexivity.
  rewrite !validate_str_str, validate_int_int. simpl.
  destruct (validate_str coffee_name) as [n|]; simpl; [| discriminate].
  destruct (validate_float total_price) as [t|]; simpl; [| discriminate].
  intros [= <-]. simpl. repeat split; reflexivity.
Qed.

Lemma Order_new_dict (env : Env) (order : Order.t) :
  Order.new env (Order.dict order) = Returns order.
Proof.
  destruct order as [i cn ci cf q t ts st].
  unfold Order.new, required, defaulted.
  set (kw := Order.dict _).
  assert (kw !! "id" = Some (VStr i)) as -> by reflexivity.
  assert (kw !! "customer_name" = Some (VStr cn)) as -> by reflexivity.
  assert (kw !! "coffee_id" = Some (VStr ci)) as -> by reflexivity.
  assert (kw !! "coffee_name" = Some (VStr cf)) as -> by reflexivity.
  assert (kw !! "quantity" = Some (VInt q)) as -> by reflexivity.
  assert (kw !! "total_price" = Some (VFloat t)) as -> by reflexivity.
  assert (kw !! "timestamp" = Some (VDatetime ts)) as -> by reflexivity.
  assert (kw !! "status" = Some (VStr st)) as -> by reflexivity.
  rewrite !validate_str_str, validate_int_int, validate_float_float,
    validate_datetime_datetime.
  reflexivity.
Qed.

(** What a successful [create_order] went through. *)
Lemma create_order_success (env : Env) (db db' : InMemoryDB)
    (order_create : OrderCreate.t) (order : Order.t) :
  create_order env db order_create = (Returns order, db') ->
  exists menu orders coffee_item price total_price coffee_name,
    get_collection db "menu" = Returns menu
    /\ get_collection db "orders" = Returns orders
    /\ await (find_one menu {[ "id" := VStr (OrderCreate.coffee_id order_create);
                               "available" := VBool true ]}) = Some coffee_item
    /\ coffee_item !! "price" = Some price
    /\ py_mul price (OrderCreate.quantity order_create) = Returns total_price
    /\ coffee_item !! "name" = Some coffee_name
    /\ Order.new env (order_data order_create coffee_name total_price) = Returns order
    /\ db' = store db "orders" (orders ++ [Order.dict order]).
Proof.
  unfold create_order.
  destruct (get_collection db "menu") as [menu|e] eqn:Hmenu; simpl; [| destruct e; discriminate].
  destruct (get_collection db "orders") as [orders|e] eqn:Horders; simpl;
    [| destruct e; discriminate].
  destruct (find_one_loop _ menu) as [coffee_item|] eqn:Hfind; [| simpl; discriminate].
  destruct (py_not (Some coffee_item)) eqn:Hnot; [simpl; discriminate |].
  unfold getitem.
  destruct (coffee_item !! "price") as [price|] eqn:Hprice; simpl; [| discriminate].
  destruct (py_mul price _) as [total_price|e] eqn:Hmul; simpl;
    [| destruct e; discriminate].
  destruct (coffee_item !! "name") as [coffee_name|] eqn:Hname; simpl; [| discriminate].
  destruct (Order.new env _) as [o|e] eqn:Hnew; simpl; [| destruct e; discriminate].
  intros [= <- <-].
  exists menu, orders, coffee_item, price, total_price, coffee_name.
  repeat split; auto.
Qed.


(** C2. When every menu record with the requested identifier has its
    availability flag false, and so also when no record has that
    identifier, [POST /orders] raises the 404 error and leaves the database,
    the orders collection with it, as it was. *)
Theorem create_order_not_found (env : Env) (db : InMemoryDB)
    (order_create : OrderCreate.t) (menu orders : list document) :
  get_collection db "menu" = Returns menu ->
  get_collection db "orders" = Returns orders ->
  (forall r, r ∈ menu ->
     r !! "id" = Some (VStr (OrderCreate.coffee_id order_create)) ->
     r !! "available" = Some (VBool false)) ->
  create_order env db order_create
    = (Raises (HTTPException 404 "Coffee item not found or unavailable"), db)
  /\ get_collection (create_order env db order_create).2 "orders" = Returns orders.
Proof.
  intros Hmenu Horders Hunavailable.
  assert (create_order env db order_create
          = (Raises (HTTPException 404 "Coffee item not found or unavailable"), db))
    as Hresult.
  { unfold create_order. rewrite Hmenu, Horders. simpl.
    rewrite find_one_loop_none; [reflexivity |].
    apply Forall_forall. intros r Hr Hs.
    apply satisfies_id_available in Hs as [Hid [a [Ha Heq]]].
    rewrite (Hunavailable r Hr Hid) in Ha. injection Ha as <-.
    discriminate. }
  rewrite Hresult. split; [reflexivity | exact Horders].
Qed.

(** C4. After [POST /orders] has created an order under an identifier that
    no stored order bears, [GET /orders/{id}] with that identifier, on the
    database the creation left, returns the created order: the same [id],
    [customer_name], [coffee_id], [coffee_name], [quantity] and
    [total_price] (and the same [timestamp] and [status]). *)
Theorem get_order_after_create (env env' : Env) (db db' : InMemoryDB)
    (order_create : OrderCreate.t) (order : Order.t) (orders : list document) :
  get_collection db "orders" = Returns orders ->
  (forall r, r ∈ orders -> r !! "id" <> Some (VStr (uuid4 env 0))) ->
  create_order env db order_create = (Returns order, db') ->
  get_order env' db' (Order.id order) = Returns order.
Proof.
  intros Horders Hfresh Hcreate.
  apply create_order_success in Hcreate
    as (menu & orders' & item & price & total & name &
        _ & Horders' & _ & _ & _ & _ & Hnew & ->).
  rewrite Horders in Horders'. injection Horders' as <-.
  apply Order_new_order_data in Hnew as (Hid & _).
  unfold get_order. rewrite get_collection_store_eq. simpl.
  assert ((Order.dict order : document) !! "id" = Some (VStr (Order.id order)))
    as Hdict by reflexivity.
  rewrite (find_one_loop_app _ orders (Order.dict order)).
  - rewrite (py_not_found _ _ _ Hdict). rewrite Order_new_dict. reflexivity.
  - apply Forall_forall. intros r Hr Hs. apply satisfies_id in Hs.
    rewrite Hid in Hs. exact (Hfresh r Hr Hs).
  - apply satisfies_id. exact Hdict.
Qed.




End CoffeeShopProperties.

(** * [GET /menu] and the start-up *)

Section MenuAndStartup.
Import InMemoryCollection.
Context `{Pydantic}.

(** What the handler's expression selects once [find] is awaited: the first
    hundred of the available records, in insertion order. *)
Lemma menu_query_first_hundred (data : list document) :
  await (InMemoryCursor.to_list
           (await (find data (Some {[ "available" := VBool true ]}))) (Some 100%Z))
  = take 100 (filter (satisfies {[ "available" := VBool true ]}) data).
Proof. simpl. rewrite find_loop_filter. reflexivity. Qed.


(** The catalog is typed as [CoffeeItem] declares: every record has a [str]
    name, a [float] price and the flag [True]. *)
Lemma sample_menu_typed (env : Env) (item : document) :
  item ∈ sample_menu env ->
  exists (name : string) (price : float),
    item !! "name" = Some (VStr name)
    /\ item !! "price" = Some (VFloat price)
    /\ item !! "available" = Some (VBool true).
Proof.
  unfold sample_menu. intros Hin.
  repeat (apply elem_of_cons in Hin as [-> | Hin];
          [eexists _, _; repeat split; reflexivity |]).
  apply elem_of_nil in Hin. destruct Hin.
Qed.

(** C3. Start-up on a menu that holds a record inserts nothing. Start-up on
    an empty menu puts the five records of the catalog there and touches no
    other collection. A second start-up after either inserts nothing. *)
Theorem startup_seeding_idempotent (env env' : Env) (db : InMemoryDB)
    (menu : list document) :
  get_collection db "menu" = Returns menu ->
  exists db',
    startup_event env db = Returns db'
    /\ (menu <> [] -> db' = db)
    /\ (menu = [] ->
         get_collection db' "menu" = Returns (sample_menu env)
         /\ length (sample_menu env) = 5%nat
         /\ forall other, other <> "menu" ->
              get_collection db' other = get_collection db other)
    /\ startup_event env' db' = Returns db'.
Proof.
  intros Hmenu. unfold startup_event. rewrite Hmenu.
  unfold bind at 1. rewrite count_documents_empty_query.
  destruct menu as [|item rest].
  - exists (store db "menu" (sample_menu env)).
    split; [reflexivity |]. split; [intros Hne; congruence |]. split.
    + intros _. split; [apply get_collection_store_eq |].
      split; [reflexivity |].
      intros other Hne. apply get_collection_store_ne. exact Hne.
    + rewrite get_collection_store_eq. unfold bind.
      rewrite count_documents_empty_query. reflexivity.
  - exists db.
    split; [reflexivity |]. split; [reflexivity |]. split; [discriminate |].
    rewrite Hmenu. unfold bind. rewrite count_documents_empty_query. reflexivity.
Qed.

End MenuAndStartup.

Lemma startup_seeding_witness :
  exists db',
    startup_event seed_env InMemoryDB_init = Returns db'
    /\ get_collection db' "menu" = Returns (sample_menu seed_env)
    /\ startup_event later_env db' = Returns db'.
Proof.
  destruct (startup_seeding_idempotent seed_env later_env InMemoryDB_init [] eq_refl)
    as (db' & Hstart & _ & Hempty & Hagain).
  exists db'. split; [exact Hstart |]. split; [| exact Hagain].
  apply Hempty. reflexivity.
Defined.

(** * Properties of the agent routes *)

Section AgentProperties.
Context `{Pydantic} `{AgentLibrary}.
Variable str : exception -> string.

Lemma chat_with_agent_payload (g : Agents) (request : ChatRequest.t) :
  exists payload, (chat_with_agent str g request).1 = Returns payload.
Proof.
  unfold chat_with_agent.
  destruct (g1 ←! chat_init_agents g (ChatRequest.agent_type request);
            chat_try g1 request); simpl; eauto.
Qed.

Lemma search_and_summarize_payload (g : Agents) (request : SearchRequest.t) :
  exists payload, (search_and_summarize str g request).1 = Returns payload.
Proof.
  unfold search_and_summarize.
  destruct (g1 ←! search_init_agent g; search_try g1 request); simpl; eauto.
Qed.

(** C8. [POST /chat] and [POST /search] always return a payload, never an
    HTTP error. When the construction of the agent, its [execute] or (for
    the chat) its [get_capabilities] raises, the payload has [success] false
    and the text of the exception as its [error]; when [execute] reports a
    failure, the payload has [success] false and carries the reported
    [error]. *)
Theorem agent_failure_is_a_payload (g : Agents) (chat : ChatRequest.t)
    (search : SearchRequest.t) :
  (exists payload,
      (chat_with_agent str g chat).1 = Returns payload
      /\ (forall e, chat_init_agents g (ChatRequest.agent_type chat) = Raises e ->
            ChatResponse.success payload = false
            /\ ChatResponse.error payload = Some (str e))
      /\ (forall g1 agent,
            chat_init_agents g (ChatRequest.agent_type chat) = Returns g1 ->
            selected_agent g1 (ChatRequest.agent_type chat) = Some agent ->
            (forall e, execute agent (ChatRequest.message chat) None = Raises e ->
               ChatResponse.success payload = false
               /\ ChatResponse.error payload = Some (str e))
            /\ (forall r e,
                  execute agent (ChatRequest.message chat) None = Returns r ->
                  get_capabilities agent = Raises e ->
                  ChatResponse.success payload = false
                  /\ ChatResponse.error payload = Some (str e))
            /\ (forall r capabilities,
                  execute agent (ChatRequest.message chat) None = Returns r ->
                  get_capabilities agent = Returns capabilities ->
                  AgentResponse.success r = false ->
                  ChatResponse.success payload = false
                  /\ ChatResponse.error payload = AgentResponse.error r)))
  /\ (exists payload,
      (search_and_summarize str g search).1 = Returns payload
      /\ (forall e, search_init_agent g = Raises e ->
            SearchResponse.success payload = false
            /\ SearchResponse.error payload = Some (str e))
      /\ (forall g1 agent,
            search_init_agent g = Returns g1 ->
            search_agent g1 = Some agent ->
            (forall e,
               execute agent (search_prompt (SearchRequest.query search)) (Some true)
                 = Raises e ->
               SearchResponse.success payload = false
               /\ SearchResponse.error payload = Some (str e))
            /\ (forall r,
                  execute agent (search_prompt (SearchRequest.query search)) (Some true)
                    = Returns r ->
                  AgentResponse.success r = false ->
                  SearchResponse.success payload = false
                  /\ SearchResponse.error payload = AgentResponse.error r))).
Proof.
  split.
  - destruct (chat_with_agent_payload g chat) as [payload Hpayload].
    exists payload. split; [exact Hpayload |].
    unfold chat_with_agent in Hpayload. split.
    + intros e Hinit. rewrite Hinit in Hpayload. simpl in Hpayload.
      injection Hpayload as <-. split; reflexivity.
    + intros g1 agent Hinit Hagent. rewrite Hinit in Hpayload.
      unfold bind at 1, chat_try in Hpayload. rewrite Hagent in Hpayload.
      split; [| split].
      * intros e Hexec. rewrite Hexec in Hpayload. simpl in Hpayload.
        injection Hpayload as <-. split; reflexivity.
      * intros r e Hexec Hcaps. rewrite Hexec, Hcaps in Hpayload.
        simpl in Hpayload. injection Hpayload as <-. split; reflexivity.
      * intros r capabilities Hexec Hcaps Hfail.
        rewrite Hexec, Hcaps in Hpayload. simpl in Hpayload.
        injection Hpayload as <-. simpl. split; [exact Hfail | reflexivity].
  - destruct (search_and_summarize_payload g search) as [payload Hpayload].
    exists payload. split; [exact Hpayload |].
    unfold search_and_summarize in Hpayload. split.
    + intros e Hinit. rewrite Hinit in Hpayload. simpl in Hpayload.
      injection Hpayload as <-. split; reflexivity.
    + intros g1 agent Hinit Hagent. rewrite Hinit in Hpayload.
      unfold bind at 1, search_try in Hpayload. rewrite Hagent in Hpayload.
      split.
      * intros e Hexec. rewrite Hexec in Hpayload. simpl in Hpayload.
        injection Hpayload as <-. split; reflexivity.
      * intros r Hexec Hfail. rewrite Hexec in Hpayload. simpl in Hpayload.
        rewrite Hfail in Hpayload. simpl in Hpayload.
        injection Hpayload as <-. split; reflexivity.
Qed.

End AgentProperties.

(** ** The routes at work on the seeded store *)

Lemma strict_pydantic_laws : @PydanticLaws strict_pydantic.
Proof. split; reflexivity. Qed.

Example py_mul_price : py_mul (VFloat 4.5%float) 2 = Returns (VFloat 9%float).
Proof. vm_compute. reflexivity. Qed.

Example py_eq_numeric_tower :
  py_eq (VInt 1) (VBool true) = true
  /\ py_eq (VFloat 1%float) (VBool true) = true
  /\ py_eq (VFloat 4.5%float) (VInt 4) = false
  /\ py_eq (VFloat nan) (VFloat nan) = false.
Proof. vm_compute. repeat split. Qed.

Example find_available_example :
  InMemoryCursor.data (await (InMemoryCollection.find
     [ {[ "id" := VStr "a"; "available" := VBool true ]};
       {[ "id" := VStr "b"; "available" := VBool false ]};
       {[ "id" := VStr "c" ]};
       {[ "id" := VStr "d"; "available" := VInt 1 ]} ]
     (Some {[ "available" := VBool true ]})))
  = [ {[ "id" := VStr "a"; "available" := VBool true ]};
      {[ "id" := VStr "d"; "available" := VInt 1 ]} ].
Proof. vm_compute. reflexivity. Qed.

Example create_order_on_seeded_db :
  (@create_order strict_pydantic request_env seeded_db two_yirgacheffe).1
    = Returns first_order.
Proof. vm_compute. reflexivity. Qed.


Lemma create_order_not_found_witness :
  @create_order strict_pydantic request_env sold_out_db
     {| OrderCreate.customer_name := "A"; OrderCreate.coffee_id := "decaf";
        OrderCreate.quantity := 1 |}
    = (Raises (HTTPException 404 "Coffee item not found or unavailable"), sold_out_db)
  /\ get_collection
       (@create_order strict_pydantic request_env sold_out_db
          {| OrderCreate.customer_name := "A"; OrderCreate.coffee_id := "decaf";
             OrderCreate.quantity := 1 |}).2 "orders" = Returns [].
Proof.
  apply (@create_order_not_found strict_pydantic request_env sold_out_db
           {| OrderCreate.customer_name := "A"; OrderCreate.coffee_id := "decaf";
              OrderCreate.quantity := 1 |}
           [ {[ "id" := VStr "decaf"; "name" := VStr "Decaf"; "origin" := VStr "None";
                "description" := VStr "Gone"; "price" := VFloat 3%float;
                "available" := VBool false ]} ] []).
  - vm_compute. reflexivity.
  - vm_compute. reflexivity.
  - intros r Hr _. apply list_elem_of_singleton in Hr. subst r.
    vm_compute. reflexivity.
Defined.

Lemma get_order_after_create_witness :
  @get_order strict_pydantic seed_env
     (@create_order strict_pydantic later_env one_order_db two_yirgacheffe).2
     (Order.id second_order)
    = Returns second_order.
Proof.
  apply (@get_order_after_create strict_pydantic strict_pydantic_laws
           later_env seed_env one_order_db
           (@create_order strict_pydantic later_env one_order_db two_yirgacheffe).2
           two_yirgacheffe second_order [Order.dict first_order]).
  - vm_compute. reflexivity.
  - intros r Hr. apply list_elem_of_singleton in Hr. subst r.
    vm_compute. discriminate.
  - vm_compute. reflexivity.
Defined.


Example chat_with_raising_agent :
  (@chat_with_agent failing_library message_of
     {| search_agent := None; chat_agent := None |}
     {| ChatRequest.message := "hello"; ChatRequest.agent_type := "chat";
        ChatRequest.context := None |}).1
  = Returns {| ChatResponse.success := false;
               ChatResponse.response := "";
               ChatResponse.agent_type := "chat";
               ChatResponse.capabilities := [];
               ChatResponse.metadata := ∅;
               ChatResponse.error := Some "connection refused" |}.
Proof. reflexivity. Qed.

Example search_with_refusing_agent :
  (@search_and_summarize strict_pydantic failing_library message_of
     {| search_agent := None; chat_agent := None |}
     {| SearchRequest.query := "arabica"; SearchRequest.max_results := 5 |}).1
  = Returns {| SearchResponse.success := false;
               SearchResponse.query := "arabica";
               SearchResponse.summary := "";
               SearchResponse.search_results := None;
               SearchResponse.sources_count := 0;
               SearchResponse.error := Some "quota exceeded" |}.
Proof. reflexivity. Qed.

(** * More on the record store *)

Section RecordStoreComposition.
Import InMemoryCollection.

Lemma count_loop_filter (q : query) (data : list document) (count : Z) :
  count_loop q data count
  = (count + Z.of_nat (length (filter (satisfies q) data)))%Z.
Proof.
  revert count. induction data as [|item rest IH]; intros count; simpl count_loop.
  - rewrite filter_nil. simpl. lia.
  - rewrite IH. destruct (_matches_query item q) eqn:Hm.
    + rewrite filter_cons_True by (apply matches_query_satisfies; exact Hm).
      simpl length. lia.
    + rewrite filter_cons_False; [reflexivity |].
      intros Hs. apply matches_query_satisfies in Hs. congruence.
Qed.

Lemma satisfies_empty (r : document) : satisfies ∅ r.
Proof. intros key v Hq. rewrite lookup_empty in Hq. discriminate. Qed.

Lemma filter_satisfies_empty (data : list document) :
  filter (satisfies ∅) data = data.
Proof.
  induction data as [|item rest IH]; [reflexivity |].
  rewrite filter_cons_True by apply satisfies_empty. rewrite IH. reflexivity.
Qed.

(** X1. [count_documents] counts what [find] selects: with the same query,
    given or not, its result is the number of records in the cursor that
    [find] returns. *)
Theorem count_documents_counts_find (data : list document) (q : option query) :
  await (count_documents data q)
  = Z.of_nat (length (await (InMemoryCursor.to_list (await (find data q)) None))).
Proof.
  destruct q as [q|]; simpl; [| reflexivity].
  rewrite count_loop_filter, find_loop_filter. simpl. lia.
Qed.

(** X2. [find_one] returns the first record of what [find] selects, and it
    returns [None] exactly when [count_documents] is [0]. *)
Theorem find_one_is_first_of_find (data : list document) (q : query) :
  await (find_one data q)
    = head (await (InMemoryCursor.to_list (await (find data (Some q))) None))
  /\ (await (find_one data q) = None <-> await (count_documents data (Some q)) = 0%Z).
Proof.
  simpl. rewrite find_one_loop_head, find_loop_filter, count_loop_filter. simpl.
  split; [reflexivity |].
  destruct (filter (satisfies q) data) as [|r rest]; simpl.
  - split; reflexivity.
  - split; [discriminate | lia].
Qed.

(** X3. Whatever the limit, [to_list] returns a prefix of the cursor's
    records. A positive limit keeps as many records as the limit allows, a
    negative limit [-k] drops the last [k] records, and a limit of at least
    the number of records returns them all. *)
Theorem to_list_returns_prefix (self : InMemoryCursor.t) (length : option Z) :
  await (InMemoryCursor.to_list self length) `prefix_of` InMemoryCursor.data self
  /\ (forall n, (0 < n)%Z ->
        List.length (await (InMemoryCursor.to_list self (Some n)))
        = Nat.min (Z.to_nat n) (List.length (InMemoryCursor.data self)))
  /\ (forall n, (n < 0)%Z ->
        List.length (await (InMemoryCursor.to_list self (Some n)))
        = (List.length (InMemoryCursor.data self) - Z.to_nat (- n))%nat)
  /\ (forall n, (Z.of_nat (List.length (InMemoryCursor.data self)) <= n)%Z ->
        await (InMemoryCursor.to_list self (Some n)) = InMemoryCursor.data self).
Proof.
  destruct self as [data]. simpl. split; [| split; [| split]].
  - destruct length as [n|]; [| reflexivity].
    destruct (int_truthy n); [| reflexivity].
    unfold py_slice_to. destruct (0 <=? n)%Z; apply prefix_take.
  - intros n Hn. unfold int_truthy, py_slice_to.
    destruct (Z.eqb_spec n 0) as [-> | _]; [lia |]. simpl.
    destruct (Z.leb_spec 0 n); [| lia]. apply length_take.
  - intros n Hn. unfold int_truthy, py_slice_to.
    destruct (Z.eqb_spec n 0) as [-> | _]; [lia |]. simpl.
    destruct (Z.leb_spec 0 n); [lia |]. rewrite length_take. lia.
  - intros n Hn. unfold int_truthy, py_slice_to.
    destruct (Z.eqb_spec n 0) as [-> | _]; [reflexivity |]. simpl.
    destruct (Z.leb_spec 0 n); [| lia]. apply take_ge. lia.
Qed.

Lemma find_one_loop_app_some (q : query) (data more : list document) (r : document) :
  find_one_loop q data = Some r -> find_one_loop q (data ++ more) = Some r.
Proof.
  induction data as [|item rest IH]; simpl; [discriminate |].
  destruct (_matches_query item q); [intros H; exact H | exact IH].
Qed.

(** X4. Looking up by [id] after an [insert_one]: when no stored record bears
    the identifier of the inserted record, [find_one] on that identifier
    returns the inserted record; when one does, [find_one] still returns the
    record it returned before, so the inserted one is not reached. *)
Theorem find_one_after_insert_one (data : list document) (doc : document)
    (i : string) :
  doc !! "id" = Some (VStr i) ->
  (Forall (fun r : document => r !! "id" <> Some (VStr i)) data ->
     await (find_one (await (insert_one data doc)).1 {[ "id" := VStr i ]}) = Some doc)
  /\ (forall r, await (find_one data {[ "id" := VStr i ]}) = Some r ->
        await (find_one (await (insert_one data doc)).1 {[ "id" := VStr i ]}) = Some r).
Proof.
  intros Hid. simpl. split.
  - intros Hfresh. apply find_one_loop_app.
    + eapply Forall_impl; [exact Hfresh |].
      intros r Hr Hs. apply satisfies_id in Hs. contradiction.
    + apply satisfies_id. exact Hid.
  - intros r Hr. apply find_one_loop_app_some. exact Hr.
Qed.

Lemma find_one_after_insert_one_witness :
  await (find_one (await (insert_one [Order.dict first_order]
                            (Order.dict second_order))).1
           {[ "id" := VStr "later-0" ]}) = Some (Order.dict second_order)
  /\ await (find_one (await (insert_one [Order.dict first_order]
                               (<[ "customer_name" := VStr "Z" ]>
                                  (Order.dict first_order)))).1
              {[ "id" := VStr "order-0" ]}) = Some (Order.dict first_order).
Proof.
  split.
  - refine (proj1 (find_one_after_insert_one [Order.dict first_order]
                     (Order.dict second_order) "later-0" eq_refl) _).
    apply Forall_cons. split; [| apply Forall_nil_2].
    intros Hid. vm_compute in Hid. discriminate Hid.
  - refine (proj2 (find_one_after_insert_one [Order.dict first_order]
                     (<[ "customer_name" := VStr "Z" ]> (Order.dict first_order))
                     "order-0" eq_refl) _ _).
    vm_compute. reflexivity.
Defined.

Lemma insert_each_app (data : list document) (ids : list (option value))
    (documents : list document) :
  insert_each data ids documents
  = (data ++ documents, ids ++ map (fun d : document => d !! "id") documents).
Proof.
  revert data ids. induction documents as [|doc rest IH]; intros data ids; simpl.
  - rewrite !app_nil_r. reflexivity.
  - rewrite IH. rewrite <- !app_assoc. reflexivity.
Qed.

(** X5. [insert_many] does what [insert_one] does when called for each of
    the documents in order: the same list results, and the same identifiers
    come back in the same order. *)
Theorem insert_many_is_insert_one_repeated (data documents : list document) :
  ((await (insert_many data documents)).1,
   inserted_ids (await (insert_many data documents)).2)
  = insert_each data [] documents.
Proof. rewrite insert_each_app. reflexivity. Qed.

(** X6. After an [insert_one] the count without a query is one more, and the
    count with a query is one more exactly when the inserted record satisfies
    the query. *)
Theorem count_documents_after_insert_one (data : list document) (doc : document)
    (q : query) :
  await (count_documents (await (insert_one data doc)).1 None)
    = (await (count_documents data None) + 1)%Z
  /\ await (count_documents (await (insert_one data doc)).1 (Some q))
    = (await (count_documents data (Some q))
       + (if decide (satisfies q doc) then 1 else 0))%Z.
Proof.
  simpl. split.
  - rewrite length_app. simpl. lia.
  - rewrite !count_loop_filter, filter_app, length_app.
    destruct (decide (satisfies q doc)) as [Hs | Hs].
    + rewrite (filter_cons_True _ _ _ Hs). rewrite filter_nil. simpl. lia.
    + rewrite (filter_cons_False _ _ _ Hs). rewrite filter_nil. simpl. lia.
Qed.

Lemma satisfies_weaken (q q' : query) (r : document) :
  q ⊆ q' -> satisfies q' r -> satisfies q r.
Proof.
  intros Hsub Hs key v Hq. apply (Hs key v). eapply lookup_weaken; eassumption.
Qed.

(** X7. Adding fields to a filter narrows the selection: what [find] returns
    for the larger filter is what the larger filter selects among the records
    [find] returns for the smaller one, in the same order. *)
Theorem find_with_larger_filter (data : list document) (q q' : query) :
  q ⊆ q' ->
  InMemoryCursor.data (await (find data (Some q')))
  = filter (satisfies q') (InMemoryCursor.data (await (find data (Some q)))).
Proof.
  intros Hsub. simpl. rewrite !find_loop_filter. simpl.
  induction data as [|item rest IH]; [reflexivity |].
  destruct (decide (satisfies q' item)) as [Hs' | Hs'].
  - rewrite (filter_cons_True (satisfies q') _ _ Hs').
    rewrite (filter_cons_True (satisfies q) _ _ (satisfies_weaken _ _ _ Hsub Hs')).
    rewrite (filter_cons_True (satisfies q') _ _ Hs'). rewrite IH. reflexivity.
  - rewrite (filter_cons_False (satisfies q') _ _ Hs').
    destruct (decide (satisfies q item)) as [Hs | Hs].
    + rewrite (filter_cons_True (satisfies q) _ _ Hs).
      rewrite (filter_cons_False (satisfies q') _ _ Hs'). exact IH.
    + rewrite (filter_cons_False (satisfies q) _ _ Hs). exact IH.
Qed.

Lemma find_with_larger_filter_witness :
  InMemoryCursor.data
    (await (find (sample_menu seed_env)
              (Some {[ "id" := VStr "seed-3"; "available" := VBool true ]})))
  = filter (satisfies {[ "id" := VStr "seed-3"; "available" := VBool true ]})
      (InMemoryCursor.data
         (await (find (sample_menu seed_env) (Some {[ "available" := VBool true ]})))).
Proof.
  apply (find_with_larger_filter (sample_menu seed_env)
           {[ "available" := VBool true ]}
           {[ "id" := VStr "seed-3"; "available" := VBool true ]}).
  apply insert_subseteq. reflexivity.
Defined.

(** X8. The empty filter selects every record, as no filter does: [find]
    returns the whole collection in order, [find_one] its first record, and
    [count_documents] its size. *)
Theorem empty_filter_selects_all (data : list document) :
  InMemoryCursor.data (await (find data (Some ∅))) = data
  /\ InMemoryCursor.data (await (find data None)) = data
  /\ await (find_one data ∅) = head data
  /\ await (count_documents data (Some ∅)) = await (count_documents data None).
Proof.
  simpl. rewrite find_loop_filter, find_one_loop_head, count_loop_filter.
  rewrite filter_satisfies_empty. simpl. repeat split; reflexivity.
Qed.

End RecordStoreComposition.

(** * More on the coffee shop routes *)

Section CoffeeShopErrors.
Import InMemoryCollection.
Context `{Pydantic}.

Lemma find_one_loop_Some (q : query) (data : list document) (r : document) :
  find_one_loop q data = Some r -> r ∈ data /\ satisfies q r.
Proof.
  induction data as [|item rest IH]; simpl; [discriminate |].
  destruct (_matches_query item q) eqn:Hm.
  - intros [= <-]. split; [apply elem_of_cons; left; reflexivity |].
    apply matches_query_satisfies. exact Hm.
  - intros Hr. destruct (IH Hr) as [Hin Hs]. split; [| exact Hs].
    apply elem_of_cons. right. exact Hin.
Qed.

Lemma find_one_loop_None (q : query) (data : list document) :
  find_one_loop q data = None -> Forall (fun r => ~ satisfies q r) data.
Proof.
  induction data as [|item rest IH]; simpl; [constructor |].
  destruct (_matches_query item q) eqn:Hm; [discriminate |].
  intros Hr. constructor; [| exact (IH Hr)].
  intros Hs. apply matches_query_satisfies in Hs. congruence.
Qed.

Lemma reraise_http_500 {A} (detail : string) (e : exception) :
  (forall code d, e <> HTTPException code d) ->
  @reraise_http A detail (Raises e) = Raises (HTTPException 500 detail).
Proof. intros Hne. destruct e; try reflexivity. exfalso. eapply Hne. reflexivity. Qed.

Lemma py_mul_raises (v : value) (n : Z) (e : exception) :
  py_mul v n = Raises e -> forall code d, e <> HTTPException code d.
Proof.
  destruct v; simpl; try discriminate.
  - unfold float_of_int. destruct (binary_normalize _ _ _ _ _); simpl;
      intros [= <-]; discriminate.
  - intros [= <-]. discriminate.
Qed.

Lemma create_order_failure (env : Env) (db db' : InMemoryDB)
    (order_create : OrderCreate.t) (e : exception) :
  create_order env db order_create = (Raises e, db') -> db' = db.
Proof.
  unfold create_order.
  destruct (reraise_http _ _) as [[order db1]|e1]; intros [= _ <-]; try discriminate.
  reflexivity.
Qed.

(** X9. [GET /orders/{id}] with an identifier that no stored order bears
    raises the 404 "Order not found". *)
Theorem get_order_unknown_id (env : Env) (db : InMemoryDB) (order_id : string)
    (orders : list document) :
  get_collection db "orders" = Returns orders ->
  Forall (fun r : document => r !! "id" <> Some (VStr order_id)) orders ->
  get_order env db order_id = Raises (HTTPException 404 "Order not found").
Proof.
  intros Horders Hfresh. unfold get_order. rewrite Horders. simpl.
  rewrite find_one_loop_none; [reflexivity |].
  eapply Forall_impl; [exact Hfresh |].
  intros r Hr Hs. apply satisfies_id in Hs. contradiction.
Qed.

(** X10. [POST /orders] writes at most once. When it raises, the database is
    as it was; when it returns an order, that order's [dict] has been put at
    the end of the orders collection and every other collection is as it
    was. *)
Theorem create_order_writes_once (env : Env) (db : InMemoryDB)
    (order_create : OrderCreate.t) :
  (forall e, (create_order env db order_create).1 = Raises e ->
     (create_order env db order_create).2 = db)
  /\ (forall order, (create_order env db order_create).1 = Returns order ->
        exists orders,
          get_collection db "orders" = Returns orders
          /\ get_collection (create_order env db order_create).2 "orders"
             = Returns (orders ++ [Order.dict order])
          /\ forall other, other <> "orders" ->
               get_collection (create_order env db order_create).2 other
               = get_collection db other).
Proof.
  destruct (create_order env db order_create) as [result db'] eqn:Hcreate. simpl.
  split.
  - intros e ->. eapply create_order_failure. exact Hcreate.
  - intros order ->.
    apply create_order_success in Hcreate
      as (menu & orders & item & price & total & name &
          _ & Horders & _ & _ & _ & _ & _ & ->).
    exists orders. split; [exact Horders |]. split.
    + apply get_collection_store_eq.
    + intros other Hne. apply get_collection_store_ne. exact Hne.
Qed.

End CoffeeShopErrors.

Lemma get_order_unknown_id_witness :
  @get_order strict_pydantic seed_env one_order_db "nonexistent-id"
  = Raises (HTTPException 404 "Order not found").
Proof.
  apply (@get_order_unknown_id strict_pydantic seed_env one_order_db "nonexistent-id"
           [Order.dict first_order]).
  - vm_compute. reflexivity.
  - apply Forall_cons. split; [| apply Forall_nil_2].
    intros Hid. vm_compute in Hid. discriminate Hid.
Defined.

Section CoffeeShopStatuses.
Import InMemoryCollection.
Context `{Pydantic} `{!PydanticErrors}.

Lemma Order_new_raises (env : Env) (kw : document) (e : exception) :
  Order.new env kw = Raises e -> exists f, e = ValidationError f.
Proof.
  unfold Order.new, required, defaulted. repeat validation_step.
Qed.

Lemma reraise_http_validation {A} (detail : string) (e : exception) :
  (exists f, e = ValidationError f) ->
  @reraise_http A detail (Raises e) = Raises (HTTPException 500 detail).
Proof. intros [f ->]. reflexivity. Qed.

(** X11. The errors of [POST /orders], on a store that has its menu and
    orders collections: the 404 when no menu record has the requested
    identifier together with a flag equal to [True], and the 500 "Failed to
    create order" when one has; nothing else is raised. *)
Theorem create_order_raises_404_or_500 (env : Env) (db : InMemoryDB)
    (order_create : OrderCreate.t) (menu orders : list document) (e : exception) :
  get_collection db "menu" = Returns menu ->
  get_collection db "orders" = Returns orders ->
  (create_order env db order_create).1 = Raises e ->
  (e = HTTPException 404 "Coffee item not found or unavailable"
   /\ forall r, r ∈ menu ->
        ~ (r !! "id" = Some (VStr (OrderCreate.coffee_id order_create))
           /\ exists a, r !! "available" = Some a /\ py_eq a (VBool true) = true))
  \/ (e = HTTPException 500 "Failed to create order"
      /\ exists r, r ∈ menu
           /\ r !! "id" = Some (VStr (OrderCreate.coffee_id order_create))
           /\ exists a, r !! "available" = Some a /\ py_eq a (VBool true) = true).
Proof.
  intros Hmenu Horders. unfold create_order. rewrite Hmenu, Horders. simpl.
  destruct (find_one_loop _ menu) as [item|] eqn:Hfind.
  - apply find_one_loop_Some in Hfind as [Hin Hs].
    apply satisfies_id_available in Hs as [Hid Havailable].
    rewrite (py_not_found _ _ _ Hid).
    intros Hraise. right. split; [| exists item; auto].
    revert Hraise. unfold getitem.
    destruct (item !! "price") as [price|]; simpl; [| intros [= <-]; reflexivity].
    destruct (py_mul price _) as [total|e1] eqn:Hmul; simpl.
    + destruct (item !! "name") as [name|]; simpl; [| intros [= <-]; reflexivity].
      destruct (Order.new env _) as [order|e2] eqn:Hnew; simpl; [discriminate |].
      apply Order_new_raises in Hnew as [f ->]. simpl. intros [= <-]. reflexivity.
    + pose proof (py_mul_raises _ _ _ Hmul) as Hne.
      destruct e1; simpl; try (intros [= <-]; reflexivity).
      exfalso. eapply Hne. reflexivity.
  - simpl. intros [= <-]. left. split; [reflexivity |].
    apply find_one_loop_None in Hfind. rewrite Forall_forall in Hfind.
    intros r Hr Hboth. apply (Hfind r Hr). apply satisfies_id_available. exact Hboth.
Qed.

(** X16. The errors of [GET /orders/{id}], on a store that has its orders
    collection: the 404 "Order not found" exactly when no stored document
    bears the identifier, and otherwise only the 500 "Failed to fetch order",
    raised when the first document that bears it does not make an [Order]. *)
Theorem get_order_raises_404_or_500 (env : Env) (db : InMemoryDB)
    (order_id : string) (orders : list document) (e : exception) :
  get_collection db "orders" = Returns orders ->
  get_order env db order_id = Raises e ->
  (e = HTTPException 404 "Order not found"
   /\ Forall (fun r : document => r !! "id" <> Some (VStr order_id)) orders)
  \/ (e = HTTPException 500 "Failed to fetch order"
      /\ exists r, r ∈ orders /\ r !! "id" = Some (VStr order_id)
           /\ await (find_one orders {[ "id" := VStr order_id ]}) = Some r
           /\ exists f, Order.new env r = Raises (ValidationError f)).
Proof.
  intros Horders. unfold get_order. rewrite Horders. simpl.
  destruct (find_one_loop _ orders) as [r|] eqn:Hfind.
  - pose proof Hfind as Hfound.
    apply find_one_loop_Some in Hfind as [Hin Hs]. apply satisfies_id in Hs.
    rewrite (py_not_found _ _ _ Hs).
    destruct (Order.new env r) as [order|e1] eqn:Hnew; simpl; [discriminate |].
    destruct (Order_new_raises _ _ _ Hnew) as [f ->]. simpl. intros [= <-].
    right. split; [reflexivity |]. exists r. repeat split; auto. exists f. exact Hnew.
  - simpl. intros [= <-]. left. split; [reflexivity |].
    apply find_one_loop_None in Hfind.
    eapply Forall_impl; [exact Hfind |].
    intros r Hr Hid. apply Hr. apply satisfies_id. exact Hid.
Qed.

End CoffeeShopStatuses.

Lemma strict_pydantic_errors : @PydanticErrors strict_pydantic.
Proof.
  split; intros v e; destruct v; simpl; intros [= <-]; eexists; reflexivity.
Qed.

Lemma create_order_raises_404_or_500_witness :
  (HTTPException 500 "Failed to create order"
     = HTTPException 404 "Coffee item not found or unavailable"
   /\ forall r, r ∈ [ ({[ "id" := VStr "mystery"; "name" := VStr "Mystery";
                          "available" := VBool true ]} : document) ] ->
        ~ (r !! "id" = Some (VStr "mystery")
           /\ exists a, r !! "available" = Some a /\ py_eq a (VBool true) = true))
  \/ (HTTPException 500 "Failed to create order"
        = HTTPException 500 "Failed to create order"
      /\ exists r, r ∈ [ ({[ "id" := VStr "mystery"; "name" := VStr "Mystery";
                             "available" := VBool true ]} : document) ]
           /\ r !! "id" = Some (VStr "mystery")
           /\ exists a, r !! "available" = Some a /\ py_eq a (VBool true) = true).
Proof.
  apply (@create_order_raises_404_or_500 strict_pydantic strict_pydantic_errors
           request_env priceless_db mystery_order
           [ {[ "id" := VStr "mystery"; "name" := VStr "Mystery";
                "available" := VBool true ]} ] []
           (HTTPException 500 "Failed to create order")).
  - vm_compute. reflexivity.
  - vm_compute. reflexivity.
  - vm_compute. reflexivity.
Defined.

Lemma get_order_raises_404_or_500_witness :
  (HTTPException 500 "Failed to fetch order" = HTTPException 404 "Order not found"
   /\ Forall (fun r : document => r !! "id" <> Some (VStr "torn"))
        [ {[ "id" := VStr "torn"; "quantity" := VInt 1 ]} ])
  \/ (HTTPException 500 "Failed to fetch order"
        = HTTPException 500 "Failed to fetch order"
      /\ exists r, r ∈ [ ({[ "id" := VStr "torn"; "quantity" := VInt 1 ]} : document) ]
           /\ r !! "id" = Some (VStr "torn")
           /\ await (InMemoryCollection.find_one
                       [ {[ "id" := VStr "torn"; "quantity" := VInt 1 ]} ]
                       {[ "id" := VStr "torn" ]}) = Some r
           /\ exists f,
                @Order.new strict_pydantic seed_env r = Raises (ValidationError f)).
Proof.
  apply (@get_order_raises_404_or_500 strict_pydantic strict_pydantic_errors
           seed_env torn_orders_db "torn"
           [ {[ "id" := VStr "torn"; "quantity" := VInt 1 ]} ]
           (HTTPException 500 "Failed to fetch order")).
  - vm_compute. reflexivity.
  - vm_compute. reflexivity.
Defined.

(** * The successful paths *)

Section CoffeeShopSuccess.
Import InMemoryCollection.
Context `{Pydantic} `{!PydanticLaws}.



Lemma StatusCheck_new_typed (env : Env) (input : StatusCheckCreate.t) :
  StatusCheck.new (uuid4 env 0) (utcnow env) (StatusCheckCreate.dict input)
  = Returns {| StatusCheck.id := uuid4 env 0;
               StatusCheck.client_name := StatusCheckCreate.client_name input;
               StatusCheck.timestamp := utcnow env |}.
Proof.
  unfold StatusCheck.new, required, defaulted.
  set (kw := StatusCheckCreate.dict input).
  assert (kw !! "id" = None) as -> by reflexivity.
  assert (kw !! "client_name" = Some (VStr (StatusCheckCreate.client_name input)))
    as -> by reflexivity.
  assert (kw !! "timestamp" = None) as -> by reflexivity.
  rewrite validate_str_str. reflexivity.
Qed.

(** X14. [POST /status] on a store that has its status collection returns a
    status check with the client's name, the identifier [uuid4] gave and the
    time [utcnow] gave, and puts its [dict] at the end of that collection. *)
Theorem create_status_check_appends (env : Env) (db : InMemoryDB)
    (input : StatusCheckCreate.t) (status_checks : list document) :
  get_collection db "status_checks" = Returns status_checks ->
  let status_obj :=
    {| StatusCheck.id := uuid4 env 0;
       StatusCheck.client_name := StatusCheckCreate.client_name input;
       StatusCheck.timestamp := utcnow env |} in
  create_status_check env db input
  = (Returns status_obj,
     store db "status_checks" (status_checks ++ [StatusCheck.dict status_obj])).
Proof.
  intros Hchecks status_obj. unfold create_status_check. rewrite Hchecks. simpl.
  rewrite StatusCheck_new_typed. reflexivity.
Qed.

End CoffeeShopSuccess.


Lemma create_status_check_appends_witness :
  @create_status_check strict_pydantic request_env seeded_db ping
  = (Returns {| StatusCheck.id := "order-0";
                StatusCheck.client_name := "probe";
                StatusCheck.timestamp := 1000000 |},
     store seeded_db "status_checks"
       [ StatusCheck.dict {| StatusCheck.id := "order-0";
                             StatusCheck.client_name := "probe";
                             StatusCheck.timestamp := 1000000 |} ]).
Proof.
  exact (@create_status_check_appends strict_pydantic strict_pydantic_laws
           request_env seeded_db ping [] ltac:(vm_compute; reflexivity)).
Defined.

(** * The store over a sequence of requests *)

Section StoreLife.
Import InMemoryCollection.
Context `{Pydantic}.

Lemma startup_event_cases (env : Env) (db : InMemoryDB) (menu : list document) :
  get_collection db "menu" = Returns menu ->
  startup_event env db
  = Returns (match menu with
             | [] => store db "menu" (sample_menu env)
             | _ :: _ => db
             end).
Proof.
  intros Hmenu. unfold startup_event. rewrite Hmenu. unfold bind.
  rewrite count_documents_empty_query. destruct menu; reflexivity.
Qed.

Lemma serve_appends (db : InMemoryDB) (r : request) (name : string)
    (data : list document) :
  get_collection db name = Returns data ->
  exists more, get_collection (serve db r) name = Returns (data ++ more).
Proof.
  intros Hdata.
  assert (exists more, get_collection db name = Returns (data ++ more)) as Hsame.
  { exists []. rewrite app_nil_r. exact Hdata. }
  destruct r as [env | env order_create | env input]; simpl.
  - destruct (get_collection db "menu") as [menu|e] eqn:Hmenu.
    + rewrite (startup_event_cases env db menu Hmenu).
      destruct menu as [|item rest]; [| exact Hsame].
      destruct (decide (name = "menu")) as [-> | Hne].
      * rewrite Hmenu in Hdata. injection Hdata as <-.
        exists (sample_menu env). apply get_collection_store_eq.
      * rewrite get_collection_store_ne by exact Hne. exact Hsame.
    + unfold startup_event. rewrite Hmenu. exact Hsame.
  - destruct (create_order env db order_create) as [[order|e] db'] eqn:Hcreate; simpl.
    + apply create_order_success in Hcreate
        as (menu & orders & item & price & total & cname &
            _ & Horders & _ & _ & _ & _ & _ & ->).
      destruct (decide (name = "orders")) as [-> | Hne].
      * rewrite Horders in Hdata. injection Hdata as <-.
        eexists. apply get_collection_store_eq.
      * rewrite get_collection_store_ne by exact Hne. exact Hsame.
    + apply create_order_failure in Hcreate as ->. exact Hsame.
  - unfold create_status_check.
    destruct (get_collection db "status_checks") as [checks|e] eqn:Hchecks; simpl;
      [| exact Hsame].
    destruct (StatusCheck.new _ _ _) as [status|e]; simpl; [| exact Hsame].
    destruct (decide (name = "status_checks")) as [-> | Hne].
    + rewrite Hchecks in Hdata. injection Hdata as <-.
      eexists. apply get_collection_store_eq.
    + rewrite get_collection_store_ne by exact Hne. exact Hsame.
Qed.

Lemma serve_all_appends (requests : list request) (db : InMemoryDB) (name : string)
    (data : list document) :
  get_collection db name = Returns data ->
  exists more, get_collection (serve_all db requests) name = Returns (data ++ more).
Proof.
  revert db data. induction requests as [|r rest IH]; intros db data Hdata; simpl.
  - exists []. rewrite app_nil_r. exact Hdata.
  - destruct (serve_appends db r name data Hdata) as [more Hmore].
    destruct (IH _ _ Hmore) as [more' Hmore'].
    exists (more ++ more'). rewrite app_assoc. exact Hmore'.
Qed.

(** X19. The store only grows. Whatever requests are served, every
    collection keeps the records it held, at the positions they had: the old
    contents are a prefix of the new. *)
Theorem store_is_append_only (requests : list request) (db : InMemoryDB)
    (name : string) (data : list document) :
  get_collection db name = Returns data ->
  exists data',
    get_collection (serve_all db requests) name = Returns data'
    /\ data `prefix_of` data'
    /\ forall (i : nat) r, data !! i = Some r -> data' !! i = Some r.
Proof.
  intros Hdata. destruct (serve_all_appends requests db name data Hdata) as [more Hmore].
  exists (data ++ more). split; [exact Hmore |]. split.
  - exists more. reflexivity.
  - intros i r Hi. apply lookup_app_l_Some. exact Hi.
Qed.

(** X13. An order that [GET /orders/{id}] returns stays there: after any
    further requests, the same call returns the same order. *)
Theorem get_order_survives_requests (env : Env) (db : InMemoryDB)
    (order_id : string) (order : Order.t) (requests : list request) :
  get_order env db order_id = Returns order ->
  get_order env (serve_all db requests) order_id = Returns order.
Proof.
  unfold get_order.
  destruct (get_collection db "orders") as [orders|e] eqn:Horders;
    [| destruct e; discriminate].
  destruct (serve_all_appends requests db "orders" orders Horders) as [more ->].
  simpl. destruct (find_one_loop _ orders) as [r|] eqn:Hfind; [| discriminate].
  rewrite (find_one_loop_app_some _ _ more _ Hfind). intros Hresult. exact Hresult.
Qed.

Lemma serve_keeps_menu (db : InMemoryDB) (r : request) (menu : list document) :
  get_collection db "menu" = Returns menu -> menu <> [] ->
  get_collection (serve db r) "menu" = Returns menu.
Proof.
  intros Hmenu Hne.
  destruct r as [env | env order_create | env input]; simpl.
  - rewrite (startup_event_cases env db menu Hmenu).
    destruct menu; [congruence | exact Hmenu].
  - destruct (create_order env db order_create) as [[order|e] db'] eqn:Hcreate; simpl.
    + apply create_order_success in Hcreate
        as (? & orders & ? & ? & ? & ? & _ & _ & _ & _ & _ & _ & _ & ->).
      rewrite get_collection_store_ne by discriminate. exact Hmenu.
    + apply create_order_failure in Hcreate as ->. exact Hmenu.
  - unfold create_status_check.
    destruct (get_collection db "status_checks") as [checks|e]; simpl; [| exact Hmenu].
    destruct (StatusCheck.new _ _ _) as [status|e]; simpl; [| exact Hmenu].
    rewrite get_collection_store_ne by discriminate. exact Hmenu.
Qed.

(** X20. Once the menu holds a record, no request changes it: a later
    start-up does not seed again, and the other routes do not write to it. *)
Theorem seeded_menu_is_fixed (requests : list request) (db : InMemoryDB)
    (menu : list document) :
  get_collection db "menu" = Returns menu -> menu <> [] ->
  get_collection (serve_all db requests) "menu" = Returns menu.
Proof.
  revert db. induction requests as [|r rest IH]; intros db Hmenu Hne; simpl.
  - exact Hmenu.
  - apply IH; [| exact Hne]. apply serve_keeps_menu; assumption.
Qed.

Lemma shaped_store (db : InMemoryDB) (name : string) (data : list document) :
  shaped db ->
  (name = "orders" \/ name = "status_checks" \/ (name = "menu" /\ is_catalog data)) ->
  shaped (store db name data).
Proof.
  intros (menu & orders & checks & Hmenu & Horders & Hchecks & Hother & Hcatalog) Hname.
  destruct Hname as [-> | [-> | [-> Hdata]]].
  - exists menu, data, checks.
    rewrite get_collection_store_eq, !get_collection_store_ne by discriminate.
    repeat split; auto.
    intros name H1 H2 H3. rewrite get_collection_store_ne by exact H2. auto.
  - exists menu, orders, data.
    rewrite get_collection_store_eq, !get_collection_store_ne by discriminate.
    repeat split; auto.
    intros name H1 H2 H3. rewrite get_collection_store_ne by exact H3. auto.
  - exists data, orders, checks.
    rewrite get_collection_store_eq, !get_collection_store_ne by discriminate.
    repeat split; auto.
    intros name H1 H2 H3. rewrite get_collection_store_ne by exact H1. auto.
Qed.

Lemma shaped_init : shaped InMemoryDB_init.
Proof.
  exists [], [], []. repeat split; try reflexivity.
  - intros name H1 H2 H3. unfold get_collection, InMemoryDB_init. simpl.
    rewrite !lookup_insert_ne by congruence.
    rewrite lookup_singleton_ne by congruence. reflexivity.
  - left. reflexivity.
Qed.

Lemma serve_shaped (db : InMemoryDB) (r : request) : shaped db -> shaped (serve db r).
Proof.
  intros Hshaped.
  pose proof Hshaped as (menu & orders & checks & Hmenu & Horders & Hchecks & _ & _).
  destruct r as [env | env order_create | env input]; simpl.
  - rewrite (startup_event_cases env db menu Hmenu).
    destruct menu; [| exact Hshaped].
    apply shaped_store; [exact Hshaped |]. right. right.
    split; [reflexivity |]. right. exists env. reflexivity.
  - destruct (create_order env db order_create) as [[order|e] db'] eqn:Hcreate; simpl.
    + apply create_order_success in Hcreate
        as (? & ? & ? & ? & ? & ? & _ & _ & _ & _ & _ & _ & _ & ->).
      apply shaped_store; [exact Hshaped | left; reflexivity].
    + apply create_order_failure in Hcreate as ->. exact Hshaped.
  - unfold create_status_check. rewrite Hchecks. simpl.
    destruct (StatusCheck.new _ _ _) as [status|e]; simpl; [| exact Hshaped].
    apply shaped_store; [exact Hshaped | right; left; reflexivity].
Qed.

Lemma serve_all_shaped (requests : list request) (db : InMemoryDB) :
  shaped db -> shaped (serve_all db requests).
Proof.
  revert db. induction requests as [|r rest IH]; intros db Hshaped; simpl.
  - exact Hshaped.
  - apply IH. apply serve_shaped. exact Hshaped.
Qed.

(** X17. From the empty store on, whatever requests are served, the store
    holds exactly its three collections, so a lookup of [menu], [orders] or
    [status_checks] never raises [KeyError] and any other name always does,
    and the menu is either empty or the five-record catalog of one
    start-up. *)
Theorem served_store_is_shaped (requests : list request) :
  exists menu orders status_checks,
    get_collection (serve_all InMemoryDB_init requests) "menu" = Returns menu
    /\ get_collection (serve_all InMemoryDB_init requests) "orders" = Returns orders
    /\ get_collection (serve_all InMemoryDB_init requests) "status_checks"
       = Returns status_checks
    /\ (forall name, name <> "menu" -> name <> "orders" -> name <> "status_checks" ->
          get_collection (serve_all InMemoryDB_init requests) name
          = Raises (KeyError name))
    /\ (menu = [] \/ exists env, menu = sample_menu env)
    /\ (length menu = 0%nat \/ length menu = 5%nat).
Proof.
  destruct (serve_all_shaped requests InMemoryDB_init shaped_init)
    as (menu & orders & checks & Hmenu & Horders & Hchecks & Hother & Hcatalog).
  exists menu, orders, checks. repeat split; auto.
  destruct Hcatalog as [-> | [env ->]]; [left | right]; reflexivity.
Qed.

(** X15. [GET /status] never returns a list on this store: with the status
    collection in place it raises the [AttributeError] of the coroutine
    object, which no handler catches, also right after a [POST /status] has
    stored a check. *)
Theorem get_status_checks_raises (env env' : Env) (db : InMemoryDB)
    (input : StatusCheckCreate.t) (status_checks : list document) :
  get_collection db "status_checks" = Returns status_checks ->
  get_status_checks env db
    = Raises (AttributeError "'coroutine' object has no attribute 'to_list'")
  /\ get_status_checks env (create_status_check env' db input).2
    = Raises (AttributeError "'coroutine' object has no attribute 'to_list'").
Proof.
  intros Hchecks. split.
  - unfold get_status_checks. rewrite Hchecks. reflexivity.
  - destruct (serve_appends db (PostStatus env' input) "status_checks"
                status_checks Hchecks) as [more Hmore].
    simpl in Hmore. unfold get_status_checks. rewrite Hmore. reflexivity.
Qed.

End StoreLife.

Lemma store_is_append_only_witness :
  exists data',
    get_collection
      (@serve_all strict_pydantic one_order_db
         [PostOrder later_env two_yirgacheffe; PostStatus later_env ping;
          Startup later_env]) "orders" = Returns data'
    /\ [Order.dict first_order] `prefix_of` data'
    /\ forall (i : nat) r,
         [Order.dict first_order] !! i = Some r -> data' !! i = Some r.
Proof.
  exact (@store_is_append_only strict_pydantic
           [PostOrder later_env two_yirgacheffe; PostStatus later_env ping;
            Startup later_env]
           one_order_db "orders" [Order.dict first_order]
           ltac:(vm_compute; reflexivity)).
Defined.

Lemma get_order_survives_requests_witness :
  @get_order strict_pydantic seed_env
     (@serve_all strict_pydantic one_order_db
        [PostOrder later_env two_yirgacheffe; PostStatus later_env ping])
     "order-0"
  = Returns first_order.
Proof.
  exact (@get_order_survives_requests strict_pydantic seed_env one_order_db
           "order-0" first_order
           [PostOrder later_env two_yirgacheffe; PostStatus later_env ping]
           ltac:(vm_compute; reflexivity)).
Defined.

Lemma seeded_menu_is_fixed_witness :
  get_collection
    (@serve_all strict_pydantic seeded_db
       [Startup later_env; PostOrder request_env two_yirgacheffe]) "menu"
  = Returns (sample_menu seed_env).
Proof.
  apply (@seeded_menu_is_fixed strict_pydantic
           [Startup later_env; PostOrder request_env two_yirgacheffe]
           seeded_db (sample_menu seed_env)).
  - vm_compute. reflexivity.
  - discriminate.
Defined.

Lemma get_status_checks_raises_witness :
  @get_status_checks strict_pydantic seed_env seeded_db
    = Raises (AttributeError "'coroutine' object has no attribute 'to_list'")
  /\ @get_status_checks strict_pydantic seed_env
       (@create_status_check strict_pydantic request_env seeded_db ping).2
    = Raises (AttributeError "'coroutine' object has no attribute 'to_list'").
Proof.
  exact (@get_status_checks_raises strict_pydantic seed_env request_env seeded_db
           ping [] ltac:(vm_compute; reflexivity)).
Defined.

Section StoredOrders.
Import InMemoryCollection.
Context `{Pydantic} `{!PydanticLaws}.

Lemma py_mul_float (price : float) (n : Z) (total : value) :
  py_mul (VFloat price) n = Returns total ->
  exists quantity, float_of_int n = Returns quantity
                   /\ total = VFloat (price * quantity)%float.
Proof.
  simpl. destruct (float_of_int n) as [quantity|e]; simpl; [| discriminate].
  intros [= <-]. exists quantity. split; reflexivity.
Qed.

Lemma created_order_is_billed (env : Env) (db db' : InMemoryDB)
    (order_create : OrderCreate.t) (order : Order.t) (menu : list document) :
  is_catalog menu ->
  get_collection db "menu" = Returns menu ->
  create_order env db order_create = (Returns order, db') ->
  billed_from menu (Order.dict order).
Proof.
  intros Hcatalog Hmenu Hcreate.
  apply create_order_success in Hcreate
    as (menu' & orders & item & price & total & cname &
        Hmenu' & _ & Hfind & Hprice & Hmul & Hname & Hnew & _).
  rewrite Hmenu in Hmenu'. injection Hmenu' as <-.
  simpl in Hfind. apply find_one_loop_Some in Hfind as [Hin Hs].
  apply satisfies_id_available in Hs as [Hid _].
  destruct Hcatalog as [-> | [env0 ->]]; [apply elem_of_nil in Hin; destruct Hin |].
  destruct (sample_menu_typed env0 item Hin) as (n & p & Hn & Hp & Havailable).
  rewrite Hp in Hprice. injection Hprice as <-.
  rewrite Hn in Hname. injection Hname as <-.
  apply py_mul_float in Hmul as (quantity & Hquantity & ->).
  apply Order_new_order_data in Hnew
    as (_ & _ & Hcoffee & Hcname & Hq & Htotal & _ & Hstatus).
  rewrite validate_str_str in Hcname. injection Hcname as Hcname.
  rewrite validate_float_float in Htotal. injection Htotal as Htotal.
  exists order, item, p, quantity. repeat split; auto.
  - rewrite Hcoffee. exact Hid.
  - rewrite <- Hcname. exact Hn.
  - rewrite Hq. exact Hquantity.
Qed.

Lemma serve_billed (db : InMemoryDB) (r : request) :
  shaped db -> billed db -> billed (serve db r).
Proof.
  intros (menu & orders & checks & Hmenu & Horders & Hchecks & _ & Hcatalog) Hbilled.
  destruct r as [env | env order_create | env input]; simpl.
  - rewrite (startup_event_cases env db menu Hmenu).
    destruct menu as [|item rest]; [| exact Hbilled].
    intros menu' orders' _ Horders'.
    rewrite get_collection_store_ne in Horders' by discriminate.
    eapply Forall_impl; [exact (Hbilled [] orders' Hmenu Horders') |].
    intros d (o & it & p & q & _ & _ & Hin & _). apply elem_of_nil in Hin. destruct Hin.
  - destruct (create_order env db order_create) as [[order|e] db'] eqn:Hcreate; simpl.
    + pose proof (created_order_is_billed _ _ _ _ _ _ Hcatalog Hmenu Hcreate) as Hnew.
      apply create_order_success in Hcreate
        as (? & orders0 & ? & ? & ? & ? & _ & Horders0 & _ & _ & _ & _ & _ & ->).
      intros menu' orders' Hmenu' Horders'.
      rewrite get_collection_store_ne in Hmenu' by discriminate.
      rewrite get_collection_store_eq in Horders'. injection Horders' as <-.
      rewrite Hmenu in Hmenu'. injection Hmenu' as <-.
      apply Forall_app. split; [exact (Hbilled menu orders0 Hmenu Horders0) |].
      apply Forall_cons. split; [exact Hnew | apply Forall_nil_2].
    + apply create_order_failure in Hcreate as ->. exact Hbilled.
  - unfold create_status_check. rewrite Hchecks. simpl.
    destruct (StatusCheck.new _ _ _) as [status|e]; simpl; [| exact Hbilled].
    intros menu' orders' Hmenu' Horders'.
    rewrite get_collection_store_ne in Hmenu' by discriminate.
    rewrite get_collection_store_ne in Horders' by discriminate.
    exact (Hbilled menu' orders' Hmenu' Horders').
Qed.

Lemma serve_all_billed (requests : list request) (db : InMemoryDB) :
  shaped db -> billed db -> billed (serve_all db requests).
Proof.
  revert db. induction requests as [|r rest IH]; intros db Hshaped Hbilled; simpl.
  - exact Hbilled.
  - apply IH; [apply serve_shaped; exact Hshaped | apply serve_billed; assumption].
Qed.

(** X18. From the empty store on, whatever requests are served, every
    stored order is the [dict] of a pending order that names an available
    record of the menu as it is now: it bears that record's identifier and
    name, and its total is that record's price times the order's quantity. *)
Theorem served_orders_are_billed (requests : list request)
    (menu orders : list document) :
  get_collection (serve_all InMemoryDB_init requests) "menu" = Returns menu ->
  get_collection (serve_all InMemoryDB_init requests) "orders" = Returns orders ->
  Forall (billed_from menu) orders.
Proof.
  apply (serve_all_billed requests InMemoryDB_init shaped_init).
  intros menu0 orders0 _ Horders0. injection Horders0 as <-. constructor.
Qed.

End StoredOrders.

Lemma served_orders_are_billed_witness :
  Forall (billed_from (sample_menu seed_env)) [Order.dict first_order].
Proof.
  exact (@served_orders_are_billed strict_pydantic strict_pydantic_laws
           [Startup seed_env; PostOrder request_env two_yirgacheffe]
           (sample_menu seed_env) [Order.dict first_order]
           ltac:(vm_compute; reflexivity) ltac:(vm_compute; reflexivity)).
Defined.

(** * More on the agent routes *)

Section AgentLifecycle.
Context `{Pydantic} `{AgentLibrary}.
Variable str : exception -> string.

(** X21. The agent globals are only ever filled in. An agent that is set
    stays the one it is across [POST /chat] and [POST /search]; [POST
    /search] never touches the chat agent, and leaves the globals as they
    are when the search agent is already set; and when the construction of an
    agent raises, nothing is stored, so the next request builds again. *)
Theorem agents_once_built_are_kept (g : Agents) (chat : ChatRequest.t)
    (search : SearchRequest.t) :
  (forall a, search_agent g = Some a ->
     search_agent (chat_with_agent str g chat).2 = Some a
     /\ (search_and_summarize str g search).2 = g)
  /\ (forall a, chat_agent g = Some a ->
        chat_agent (chat_with_agent str g chat).2 = Some a)
  /\ chat_agent (search_and_summarize str g search).2 = chat_agent g
  /\ (forall e, chat_init_agents g (ChatRequest.agent_type chat) = Raises e ->
        (chat_with_agent str g chat).2 = g)
  /\ (forall e, search_init_agent g = Raises e ->
        (search_and_summarize str g search).2 = g).
Proof.
  split; [| split; [| split; [| split]]].
  - intros a Ha. split.
    + unfold chat_with_agent, chat_init_agents. rewrite Ha. simpl.
      rewrite andb_false_r.
      destruct (String.eqb (ChatRequest.agent_type chat) "chat" && is_None (chat_agent g)).
      * destruct ChatAgent as [c|e]; simpl.
        -- destruct (chat_try _ chat); simpl; congruence.
        -- simpl; congruence.
      * simpl. destruct (chat_try g chat); simpl; congruence.
    + unfold search_and_summarize, search_init_agent. rewrite Ha. simpl.
      destruct (search_try g search); reflexivity.
  - intros a Ha. unfold chat_with_agent, chat_init_agents. rewrite Ha. simpl.
    rewrite andb_false_r.
    destruct (String.eqb (ChatRequest.agent_type chat) "search" && is_None (search_agent g)).
    + destruct SearchAgent as [s|e]; simpl.
      * destruct (chat_try _ chat); simpl; congruence.
      * simpl; congruence.
    + simpl. destruct (chat_try g chat); simpl; congruence.
  - unfold search_and_summarize, search_init_agent.
    destruct (is_None (search_agent g)).
    + destruct SearchAgent as [s|e]; simpl.
      * destruct (search_try _ search); reflexivity.
      * reflexivity.
    + simpl. destruct (search_try g search); reflexivity.
  - intros e Hinit. unfold chat_with_agent. rewrite Hinit. reflexivity.
  - intros e Hinit. unfold search_and_summarize. rewrite Hinit. reflexivity.
Qed.

(** X22. [POST /chat] with an agent type that is neither [search] nor [chat]
    builds nothing and is served by the chat agent when there is one;
    without one, the handler's own 500 is caught and comes back as a payload
    with [success] false. *)
Theorem chat_with_unknown_agent_type (g : Agents) (request : ChatRequest.t) :
  ChatRequest.agent_type request <> "search" ->
  ChatRequest.agent_type request <> "chat" ->
  (chat_with_agent str g request).2 = g
  /\ (chat_agent g = None ->
        (chat_with_agent str g request).1
        = Returns {| ChatResponse.success := false;
                     ChatResponse.response := "";
                     ChatResponse.agent_type := ChatRequest.agent_type request;
                     ChatResponse.capabilities := [];
                     ChatResponse.metadata := ∅;
                     ChatResponse.error :=
                       Some (str (HTTPException 500 "Failed to initialize agent")) |})
  /\ (forall agent response capabilities,
        chat_agent g = Some agent ->
        execute agent (ChatRequest.message request) None = Returns response ->
        get_capabilities agent = Returns capabilities ->
        (chat_with_agent str g request).1
        = Returns {| ChatResponse.success := AgentResponse.success response;
                     ChatResponse.response := AgentResponse.content response;
                     ChatResponse.agent_type := ChatRequest.agent_type request;
                     ChatResponse.capabilities := capabilities;
                     ChatResponse.metadata := AgentResponse.metadata response;
                     ChatResponse.error := AgentResponse.error response |}).
Proof.
  intros Hsearch Hchat.
  apply String.eqb_neq in Hsearch. apply String.eqb_neq in Hchat.
  unfold chat_with_agent, chat_init_agents, chat_try, selected_agent.
  rewrite Hsearch, Hchat. simpl. split; [| split].
  - destruct (chat_agent g) as [agent|]; [| reflexivity].
    destruct (execute agent _ None); simpl; [| reflexivity].
    destruct (get_capabilities agent); reflexivity.
  - intros ->. reflexivity.
  - intros agent response capabilities -> -> ->. reflexivity.
Qed.


Context `{!PydanticLaws}.

(** X23. A search that succeeds: when the search agent, set or just built,
    returns a response with [success] true whose [tools_used] is an [int] or
    is missing, [POST /search] returns a payload with [success] true, the
    query, the content as summary, the metadata as search results, that
    [int] (or [0] when missing) as [sources_count], and no error. *)
Theorem search_success_payload (g g1 : Agents) (request : SearchRequest.t)
    (agent : Agent) (result : AgentResponse.t) (tools : option Z) :
  search_init_agent g = Returns g1 ->
  search_agent g1 = Some agent ->
  execute agent (search_prompt (SearchRequest.query request)) (Some true)
    = Returns result ->
  AgentResponse.success result = true ->
  AgentResponse.metadata result !! "tools_used" = VInt <$> tools ->
  search_and_summarize str g request
  = (Returns {| SearchResponse.success := true;
                SearchResponse.query := SearchRequest.query request;
                SearchResponse.summary := AgentResponse.content result;
                SearchResponse.search_results := Some (AgentResponse.metadata result);
                SearchResponse.sources_count := default 0%Z tools;
                SearchResponse.error := None |}, g1).
Proof.
  intros Hinit Hagent Hexecute Hsuccess Htools.
  unfold search_and_summarize, search_try. rewrite Hinit. simpl.
  rewrite Hagent, Hexecute. simpl. rewrite Hsuccess, Htools.
  destruct tools as [n|]; simpl; rewrite validate_int_int; reflexivity.
Qed.

End AgentLifecycle.

Section Capabilities.
Context `{AgentLibrary}.
Variable str : exception -> string.

(** X25. [GET /agents/capabilities] builds the search agent, asks its
    capabilities, builds the chat agent and asks its capabilities, in that
    order; it answers with the first exception among the four as a failure,
    and with both lists when none raises. *)
Theorem get_agent_capabilities_first_failure :
  (forall e, SearchAgent = Raises e ->
     get_agent_capabilities str = CapabilitiesFailure (str e))
  /\ (forall s e, SearchAgent = Returns s -> get_capabilities s = Raises e ->
        get_agent_capabilities str = CapabilitiesFailure (str e))
  /\ (forall s sc e, SearchAgent = Returns s -> get_capabilities s = Returns sc ->
        ChatAgent = Raises e ->
        get_agent_capabilities str = CapabilitiesFailure (str e))
  /\ (forall s sc c e, SearchAgent = Returns s -> get_capabilities s = Returns sc ->
        ChatAgent = Returns c -> get_capabilities c = Raises e ->
        get_agent_capabilities str = CapabilitiesFailure (str e))
  /\ (forall s sc c cc, SearchAgent = Returns s -> get_capabilities s = Returns sc ->
        ChatAgent = Returns c -> get_capabilities c = Returns cc ->
        get_agent_capabilities str = CapabilitiesSuccess sc cc).
Proof.
  unfold get_agent_capabilities. repeat split.
  - intros e ->. reflexivity.
  - intros s e -> Hs. simpl. rewrite Hs. reflexivity.
  - intros s sc e -> Hs ->. simpl. rewrite Hs. reflexivity.
  - intros s sc c e -> Hs -> Hc. simpl. rewrite Hs. simpl. rewrite Hc. reflexivity.
  - intros s sc c cc -> Hs -> Hc. simpl. rewrite Hs. simpl. rewrite Hc. reflexivity.
Qed.

End Capabilities.

Lemma chat_with_unknown_agent_type_witness :
  (@chat_with_agent answering_library message_of no_agents tea_request).2 = no_agents
  /\ (@chat_with_agent answering_library message_of no_agents tea_request).1
     = Returns {| ChatResponse.success := false;
                  ChatResponse.response := "";
                  ChatResponse.agent_type := "tea";
                  ChatResponse.capabilities := [];
                  ChatResponse.metadata := ∅;
                  ChatResponse.error := Some "Failed to initialize agent" |}.
Proof.
  destruct (@chat_with_unknown_agent_type answering_library message_of no_agents
              tea_request ltac:(discriminate) ltac:(discriminate))
    as (Hglobals & Hnone & _).
  split; [exact Hglobals | exact (Hnone eq_refl)].
Defined.


Lemma search_success_payload_witness :
  @search_and_summarize strict_pydantic answering_library message_of no_agents
     arabica_request
  = (Returns {| SearchResponse.success := true;
                SearchResponse.query := "arabica";
                SearchResponse.summary :=
                  "about: Search for information about: arabica. Provide a comprehensive summary with key findings.";
                SearchResponse.search_results := Some {[ "tools_used" := VInt 2 ]};
                SearchResponse.sources_count := 2;
                SearchResponse.error := None |},
     {| search_agent := Some answering_agent; chat_agent := None |}).
Proof.
  exact (@search_success_payload strict_pydantic answering_library message_of
           strict_pydantic_laws no_agents
           {| search_agent := Some answering_agent; chat_agent := None |}
           arabica_request answering_agent
           {| AgentResponse.success := true;
              AgentResponse.content :=
                "about: Search for information about: arabica. Provide a comprehensive summary with key findings.";
              AgentResponse.metadata := {[ "tools_used" := VInt 2 ]};
              AgentResponse.error := None |}
           (Some 2%Z) eq_refl eq_refl eq_refl eq_refl eq_refl).
Defined.

(** * What a filter value matches *)

Section FilterValues.
Import InMemoryCollection.

Lemma py_eq_true (a : value) :
  py_eq a (VBool true) = true <->
  a = VBool true \/ a = VInt 1
  \/ exists f, a = VFloat f /\ int_eq_float 1 f = true.
Proof.
  destruct a as [b | z | f | s | t]; simpl.
  - destruct b; simpl.
    + split; [intros _; left; reflexivity | intros _; reflexivity].
    + split; [discriminate |]. intros [Hb | [Hb | [f [Hb _]]]]; discriminate.
  - rewrite Z.eqb_eq. split.
    + intros ->. right. left. reflexivity.
    + intros [Hz | [Hz | [f [Hz _]]]]; try discriminate. injection Hz as ->. reflexivity.
  - split.
    + intros Hf. right. right. exists f. split; [reflexivity | exact Hf].
    + intros [Hf | [Hf | [f' [Hf Heq]]]]; try discriminate.
      injection Hf as <-. exact Heq.
  - split; [discriminate |]. intros [Hs | [Hs | [f [Hs _]]]]; discriminate.
  - split; [discriminate |]. intros [Hs | [Hs | [f [Hs _]]]]; discriminate.
Qed.

Lemma satisfies_available (r : document) :
  satisfies {[ "available" := VBool true ]} r <->
  exists a, r !! "available" = Some a /\ py_eq a (VBool true) = true.
Proof.
  unfold satisfies. split.
  - intros Hs. apply (Hs "available" (VBool true)). apply lookup_singleton_eq.
  - intros Ha key v Hq. apply lookup_singleton_Some in Hq as [<- <-]. exact Ha.
Qed.

(** X26. Filter values are compared as Python compares them. A filter on a
    [str] identifier selects exactly the records whose [id] is that very
    [str]; a filter on [True] selects the records whose flag is [True], the
    [int] [1] or a [float] equal to [1], and no other, so a flag stored as a
    [str] or missing never matches. *)
Theorem filter_values_compare_as_python (data : list document) (r : document)
    (i : string) :
  (r ∈ InMemoryCursor.data (await (find data (Some {[ "id" := VStr i ]}))) <->
   r ∈ data /\ r !! "id" = Some (VStr i))
  /\ (r ∈ InMemoryCursor.data
            (await (find data (Some {[ "available" := VBool true ]}))) <->
      r ∈ data
      /\ exists a, r !! "available" = Some a
           /\ (a = VBool true \/ a = VInt 1
               \/ exists f, a = VFloat f /\ int_eq_float 1 f = true)).
Proof.
  simpl. rewrite !find_loop_filter. simpl. rewrite !list_elem_of_filter. split.
  - rewrite satisfies_id. tauto.
  - rewrite satisfies_available. split.
    + intros [[a [Ha Heq]] Hin]. split; [exact Hin |].
      exists a. split; [exact Ha | apply py_eq_true; exact Heq].
    + intros [Hin [a [Ha Heq]]]. split; [| exact Hin].
      exists a. split; [exact Ha | apply py_eq_true; exact Heq].
Qed.

End FilterValues.

Example float_one_equals_true : int_eq_float 1 1%float = true.
Proof. vm_compute. reflexivity. Qed.
